(** * UIBaseElement: the clickable container of the UI tree

    A shallow embedding of [src/renderable/ui/uibaseelement.js].  The
    widget's methods are written in a small state monad over a [World]
    holding the widget object, the timer service, the pointer-event
    registry and a chronological log of every call that leaves the
    class (timer, registry, base class, overridable hooks). *)

From Stdlib Require Import ZArith List Bool String Lia.
Import ListNotations.
Local Open Scope Z_scope.

(** ** Values and events *)

(** What a handler or a hook hands back to the event bus. *)
Inductive JSVal : Type :=
| JUndefined
| JBool (b : bool)
| JNum (n : Z).

(** The pointer event object; [button] is the field [clicked] tests. *)
Record Pointer : Type := mkPointer {
  button : Z;
  pointerId : Z
}.

(** ** The widget object *)

(** Modelled from the spec: the Container base class is not part of the
    source file; of its state only position, size and the dirty flag are
    kept. *)
Record Container : Type := mkContainer {
  pos_x : Z;
  pos_y : Z;
  width : Z;
  height : Z;
  dirty : bool
}.

Record UIBaseElement : Type := mkUIBaseElement {
  super : Container;
  isClickable : bool;
  holdThreshold : Z;
  isHoldable : bool;
  hover : bool;
  holdTimeout : Z;
  released : bool;
  floating : bool;
  isKinematic : bool
}.

Definition with_dirty (b : bool) (u : UIBaseElement) : UIBaseElement :=
  mkUIBaseElement
    (mkContainer (pos_x (super u)) (pos_y (super u))
                 (width (super u)) (height (super u)) b)
    (isClickable u) (holdThreshold u) (isHoldable u) (hover u)
    (holdTimeout u) (released u) (floating u) (isKinematic u).

Definition with_hover (b : bool) (u : UIBaseElement) : UIBaseElement :=
  mkUIBaseElement (super u) (isClickable u) (holdThreshold u) (isHoldable u)
    b (holdTimeout u) (released u) (floating u) (isKinematic u).

Definition with_holdTimeout (h : Z) (u : UIBaseElement) : UIBaseElement :=
  mkUIBaseElement (super u) (isClickable u) (holdThreshold u) (isHoldable u)
    (hover u) h (released u) (floating u) (isKinematic u).

Definition with_released (b : bool) (u : UIBaseElement) : UIBaseElement :=
  mkUIBaseElement (super u) (isClickable u) (holdThreshold u) (isHoldable u)
    (hover u) (holdTimeout u) b (floating u) (isKinematic u).

(** The sentinel stored in [holdTimeout] when no hold timer is armed. *)
Definition NO_TIMEOUT : Z := -1.

(** ** The timer service *)

(** The functions handed to the timer: the arrow [() => this.hold()] of
    this widget, or a callback of some other client of the service. *)
Inductive Callback : Type :=
| HoldOfThis
| OtherCallback.

Definition is_hold (c : Callback) : bool :=
  match c with HoldOfThis => true | OtherCallback => false end.

Module timer.

(** Modelled from the spec: system/timer.js is not part of the source
    file.  One scheduled callback: the function, the delay in
    milliseconds, the repeat flag, the time gone by since it was armed
    and the handle [setTimeout] returned for it. *)
Record Entry : Type := mkEntry {
  fn : Callback;
  delay : Z;
  repeat : bool;
  elapsed : Z;
  id : Z
}.

(** Modelled from the spec: the state of the timer service, the pending
    entries and the counter that numbers the handles. *)
Record t : Type := mkTimer {
  timers : list Entry;
  timerId : Z
}.

(** Modelled from the spec: [timer.setTimeout(callback, delayMs,
    repeat=false) -> handle] of system/timer.js, which is not part of
    the source file.  The handle is the next value of a counter. *)
Definition setTimeout (f : Callback) (d : Z) (r : bool) (s : t) : Z * t :=
  let h := timerId s + 1 in
  (h, mkTimer (timers s ++ [mkEntry f d r 0 h]) h).

(** Modelled from the spec: the entries a cancellation of [h] keeps. *)
Definition keeps (h : Z) (e : Entry) : bool := negb (id e =? h).

(** Modelled from the spec: [timer.clearTimeout(handle)] of
    system/timer.js; cancelling drops the entry with that handle and
    does nothing when there is none. *)
Definition clearTimeout (h : Z) (s : t) : t :=
  mkTimer (filter (keeps h) (timers s)) (timerId s).

(** Modelled from the spec: whether the handle [h] names a scheduled
    callback. *)
Definition pending (h : Z) (s : t) : bool :=
  existsb (fun e => id e =? h) (timers s).

(** Modelled from the spec: [dt] milliseconds go by for an entry. *)
Definition tick (dt : Z) (e : Entry) : Entry :=
  mkEntry (fn e) (delay e) (repeat e) (elapsed e + dt) (id e).

(** Modelled from the spec: a callback is called once its delay has gone
    by. *)
Definition due (e : Entry) : bool := delay e <=? elapsed e.

(** Modelled from the spec: a repeating entry starts over. *)
Definition rearm (h : Z) (e : Entry) : Entry :=
  if id e =? h
  then mkEntry (fn e) (delay e) (repeat e) (elapsed e - delay e) (id e)
  else e.

(** Modelled from the spec: the service state once the entry [d] has
    been picked for firing; a one-shot entry leaves the list, a repeating
    one starts over. *)
Definition take (d : Entry) (s : t) : t :=
  if repeat d
  then mkTimer (map (rearm (id d)) (timers s)) (timerId s)
  else clearTimeout (id d) s.

End timer.

(** ** The pointer-event registry *)

(** The object a registration is keyed by. *)
Inductive Target : Type :=
| This
| OtherObject (n : nat).

(** The arrow functions [onActivateEvent] registers, or a callback that
    belongs to another registration. *)
Inductive Handler : Type :=
| CallClicked
| CallRelease
| CallEnter
| CallLeave
| OtherHandler.

(** Modelled from the spec: one registration of the pointer-event
    registry of input/input.js, which is not part of the source file. *)
Record Registration : Type := mkRegistration {
  eventName : string;
  target : Target;
  callback : Handler
}.

Definition Target_eqb (a b : Target) : bool :=
  match a, b with
  | This, This => true
  | OtherObject n, OtherObject m => Nat.eqb n m
  | _, _ => false
  end.

Definition registered_as (name : string) (o : Target) (r : Registration)
  : bool :=
  String.eqb (eventName r) name && Target_eqb (target r) o.

Module input.

(** Modelled from the spec: [registerPointerEvent(eventName,
    targetObject, callback)] of input/input.js, which is not part of the
    source file. *)
Definition registerPointerEvent (name : string) (o : Target) (cb : Handler)
  (rs : list Registration) : list Registration :=
  rs ++ [mkRegistration name o cb].

(** Modelled from the spec: [releasePointerEvent(eventName,
    targetObject)] of input/input.js. *)
Definition releasePointerEvent (name : string) (o : Target)
  (rs : list Registration) : list Registration :=
  filter (fun r => negb (registered_as name o r)) rs.

End input.

(** ** The world and its log *)

(** Every call that leaves the class, in the order it happens. *)
Inductive Call : Type :=
| TimerClearTimeout (h : Z)
| TimerSetTimeout (f : Callback) (d : Z) (r : bool) (h : Z)
| RegisterPointerEvent (name : string) (o : Target) (cb : Handler)
| ReleasePointerEvent (name : string) (o : Target)
| SuperOnActivateEvent
| SuperOnDeactivateEvent
| OnClick (e : Pointer)
| OnOver (e : Pointer)
| OnOut (e : Pointer)
| OnRelease (e : Pointer)
| OnHold.

Record World : Type := mkWorld {
  this : UIBaseElement;
  tmr : timer.t;
  registry : list Registration;
  trace : list Call
}.

(** ** The state monad of the methods *)

Definition M (A : Type) : Type := World -> A * World.

Definition ret {A : Type} (a : A) : M A := fun w => (a, w).

Definition bind {A B : Type} (c : M A) (k : A -> M B) : M B :=
  fun w => k (fst (c w)) (snd (c w)).

Declare Scope method_scope.
Delimit Scope method_scope with method.
Notation "x <- c ;; k" := (bind c (fun x => k))
  (at level 61, c at next level, right associativity) : method_scope.
Notation "c ;; k" := (bind c (fun _ => k))
  (at level 61, right associativity) : method_scope.
Local Open Scope method_scope.

Definition run {A : Type} (c : M A) (w : World) : World := snd (c w).
Definition result {A : Type} (c : M A) (w : World) : A := fst (c w).

Definition read {A : Type} (field : UIBaseElement -> A) : M A :=
  fun w => (field (this w), w).

Definition write (f : UIBaseElement -> UIBaseElement) : M unit :=
  fun w => (tt, mkWorld (f (this w)) (tmr w) (registry w) (trace w)).

Definition log (c : Call) : M unit :=
  fun w => (tt, mkWorld (this w) (tmr w) (registry w) (trace w ++ [c])).

Definition timer_clearTimeout (h : Z) : M unit :=
  fun w => (tt, mkWorld (this w) (timer.clearTimeout h (tmr w)) (registry w)
                        (trace w ++ [TimerClearTimeout h])).

Definition timer_setTimeout (f : Callback) (d : Z) (r : bool) : M Z :=
  fun w =>
    let hs := timer.setTimeout f d r (tmr w) in
    (fst hs, mkWorld (this w) (snd hs) (registry w)
                     (trace w ++ [TimerSetTimeout f d r (fst hs)])).

Definition registerPointerEvent (name : string) (o : Target) (cb : Handler)
  : M unit :=
  fun w => (tt, mkWorld (this w) (tmr w)
                        (input.registerPointerEvent name o cb (registry w))
                        (trace w ++ [RegisterPointerEvent name o cb])).

Definition releasePointerEvent (name : string) (o : Target) : M unit :=
  fun w => (tt, mkWorld (this w) (tmr w)
                        (input.releasePointerEvent name o (registry w))
                        (trace w ++ [ReleasePointerEvent name o])).

(** ** The overridable hooks *)

(** The four hooks whose result goes back to the event bus.  An override
    sees the widget as it is when the hook is called, and the event; it
    is an observer: the widget's own fields, the timer and the registry
    stay with the methods of this class.  Each call is logged. *)
Class Hooks : Type := {
  onClick : UIBaseElement -> Pointer -> JSVal;
  onOver : UIBaseElement -> Pointer -> JSVal;
  onOut : UIBaseElement -> Pointer -> JSVal;
  onRelease : UIBaseElement -> Pointer -> JSVal
}.

(** The bodies the class itself gives to the hooks. *)
Definition base_hooks : Hooks := {|
  onClick := fun _ _ => JBool false;
  onOver := fun _ _ => JUndefined;
  onOut := fun _ _ => JUndefined;
  onRelease := fun _ _ => JBool false
|}.

Definition call_hook (c : Call) (h : UIBaseElement -> Pointer -> JSVal)
  (e : Pointer) : M JSVal :=
  log c ;;
  u <- read (fun u => u) ;;
  ret (h u e).

(** ** The methods of the class *)

(** Modelled from the spec: [super(x, y, w, h)], the base constructor,
    is outside the source file; [Container_constructor] is the object it
    leaves, with the dirty flag [d0] it starts from taken as a
    parameter. *)
Definition Container_constructor (d0 : bool) (x y w h : Z) : Container :=
  mkContainer x y w h d0.

Definition constructor (d0 : bool) (x y w h : Z) : UIBaseElement :=
  {| super := Container_constructor d0 x y w h;
     isClickable := true;
     holdThreshold := 250;
     isHoldable := false;
     hover := false;
     holdTimeout := -1;
     released := true;
     floating := true;
     isKinematic := false |}.

(** Modelled from the spec: the base container's activation and
    deactivation ([super.onActivateEvent()], [super.onDeactivateEvent()])
    are outside the source file; the calls are logged. *)
Definition super_onActivateEvent : M unit := log SuperOnActivateEvent.
Definition super_onDeactivateEvent : M unit := log SuperOnDeactivateEvent.

(** [onHold() {}]: no result is used, the call is logged. *)
Definition call_onHold : M unit := log OnHold.

Section Methods.

Context {hk : Hooks}.

Definition clicked (event : Pointer) : M JSVal :=
  clickable <- read isClickable ;;
  if (button event =? 0) && clickable then
    write (with_dirty true) ;;
    write (with_released false) ;;
    holdable <- read isHoldable ;;
    (if holdable then
       old <- read holdTimeout ;;
       timer_clearTimeout old ;;
       threshold <- read holdThreshold ;;
       h <- timer_setTimeout HoldOfThis threshold false ;;
       write (with_holdTimeout h) ;;
       write (with_released false)
     else ret tt) ;;
    call_hook (OnClick event) onClick event
  else ret JUndefined.

Definition enter (event : Pointer) : M JSVal :=
  write (with_hover true) ;;
  write (with_dirty true) ;;
  call_hook (OnOver event) onOver event.

Definition release (event : Pointer) : M JSVal :=
  r <- read released ;;
  if negb r then
    write (with_released true) ;;
    write (with_dirty true) ;;
    h <- read holdTimeout ;;
    timer_clearTimeout h ;;
    write (with_holdTimeout (-1)) ;;
    call_hook (OnRelease event) onRelease event
  else ret JUndefined.

Definition leave (event : Pointer) : M JSVal :=
  write (with_hover false) ;;
  write (with_dirty true) ;;
  release event ;;
  call_hook (OnOut event) onOut event.

Definition hold : M unit :=
  h <- read holdTimeout ;;
  timer_clearTimeout h ;;
  write (with_holdTimeout (-1)) ;;
  write (with_dirty true) ;;
  r <- read released ;;
  if negb r then call_onHold else ret tt.

Definition onActivateEvent : M unit :=
  registerPointerEvent "pointerdown" This CallClicked ;;
  registerPointerEvent "pointerup" This CallRelease ;;
  registerPointerEvent "pointercancel" This CallRelease ;;
  registerPointerEvent "pointerenter" This CallEnter ;;
  registerPointerEvent "pointerleave" This CallLeave ;;
  super_onActivateEvent.

Definition onDeactivateEvent : M unit :=
  releasePointerEvent "pointerdown" This ;;
  releasePointerEvent "pointerup" This ;;
  releasePointerEvent "pointercancel" This ;;
  releasePointerEvent "pointerenter" This ;;
  releasePointerEvent "pointerleave" This ;;
  h <- read holdTimeout ;;
  timer_clearTimeout h ;;
  write (with_holdTimeout (-1)) ;;
  super_onDeactivateEvent.


(** ** The timer service at work *)

(** What the scheduled arrow function does when the service calls it. *)
Definition run_callback (f : Callback) : M unit :=
  match f with
  | HoldOfThis => hold
  | OtherCallback => ret tt
  end.

(** Modelled from the spec: one due entry is fired, unless a callback
    fired before it has cancelled it in the meantime. *)
Definition fire (d : timer.Entry) : M unit :=
  fun w =>
    if timer.pending (timer.id d) (tmr w)
    then run_callback (timer.fn d)
           (mkWorld (this w) (timer.take d (tmr w)) (registry w) (trace w))
    else (tt, w).

(** Modelled from the spec: the due entries are fired in the order they
    were scheduled. *)
Fixpoint fire_all (ds : list timer.Entry) : M unit :=
  match ds with
  | [] => ret tt
  | d :: ds' => fire d ;; fire_all ds'
  end.

(** Modelled from the spec: the timer service calls a scheduled
    callback once its delay has gone by.  [timer_update dt] lets [dt]
    milliseconds pass and fires what is due. *)
Definition timer_update (dt : Z) : M unit :=
  fun w =>
    let ts := map (timer.tick dt) (timer.timers (tmr w)) in
    fire_all (filter timer.due ts)
      (mkWorld (this w) (timer.mkTimer ts (timer.timerId (tmr w)))
               (registry w) (trace w)).

(** ** Scripts of events *)

Inductive Action : Type :=
| Press (e : Pointer)
| Release (e : Pointer)
| Enter (e : Pointer)
| Leave (e : Pointer)
| HoldFires
| Activate
| Deactivate
| Wait (dt : Z).

Definition perform (a : Action) : M unit :=
  match a with
  | Press e => clicked e ;; ret tt
  | Release e => release e ;; ret tt
  | Enter e => enter e ;; ret tt
  | Leave e => leave e ;; ret tt
  | HoldFires => hold
  | Activate => onActivateEvent
  | Deactivate => onDeactivateEvent
  | Wait dt => timer_update dt
  end.

Fixpoint perform_all (script : list Action) : M unit :=
  match script with
  | [] => ret tt
  | a :: rest => perform a ;; perform_all rest
  end.

End Methods.

(** ** Observations on a world *)

Definition is_OnHold (c : Call) : bool :=
  match c with OnHold => true | _ => false end.

Definition is_OnRelease (c : Call) : bool :=
  match c with OnRelease _ => true | _ => false end.

Definition is_OnClick (c : Call) : bool :=
  match c with OnClick _ => true | _ => false end.

Definition is_TimerSetTimeout (c : Call) : bool :=
  match c with TimerSetTimeout _ _ _ _ => true | _ => false end.

Definition count (p : Call -> bool) (w : World) : nat :=
  List.length (filter p (trace w)).

(** The hold timers of this widget among the entries [l], and those the
    service still holds. *)
Definition holds (l : list timer.Entry) : list timer.Entry :=
  filter (fun en => is_hold (timer.fn en)) l.

Definition hold_timers (w : World) : list timer.Entry :=
  holds (timer.timers (tmr w)).

(** A world right after construction: nothing scheduled, nothing
    registered, nothing logged. *)
Definition fresh_world (d0 : bool) (x y w h : Z) : World :=
  mkWorld (constructor d0 x y w h) (timer.mkTimer [] 0) [] [].


(** ** Invariants and side conditions, as computable tests *)

(** [released == true] implies that no hold timer is recorded. *)
Definition released_inv (u : UIBaseElement) : bool :=
  implb (released u) (holdTimeout u =? NO_TIMEOUT).

(** One entry of the timer service seen from the widget: it is a hold
    timer of this widget exactly when its handle is the one the widget
    keeps, a hold timer is one-shot, and handles are positive values the
    counter has already given out. *)
Definition entry_ok (u : UIBaseElement) (next : Z) (en : timer.Entry) : bool :=
  Bool.eqb (is_hold (timer.fn en)) (timer.id en =? holdTimeout u)
  && implb (is_hold (timer.fn en)) (negb (timer.repeat en))
  && (0 <? timer.id en)
  && (timer.id en <=? next).

(** The widget keeps track of its timer: every pending hold timer is the
    one whose handle sits in [holdTimeout]. *)
Definition timers_tracked (w : World) : bool :=
  forallb (entry_ok (this w) (timer.timerId (tmr w))) (timer.timers (tmr w))
  && (0 <=? timer.timerId (tmr w))
  && (holdTimeout (this w) <=? timer.timerId (tmr w)).

(** The invariant of the data model: a released widget records no
    handle and none of its hold timers is pending in the timer
    service. *)
Definition idle_when_released (w : World) : Prop :=
  released (this w) = true ->
  holdTimeout (this w) = NO_TIMEOUT /\ hold_timers w = [].

(** A due entry picked from a snapshot of the service, seen from the
    widget [u]: the part of [entry_ok] that does not mention the
    counter. *)
Definition snapshot_ok (u : UIBaseElement) (d : timer.Entry) : Prop :=
  (is_hold (timer.fn d) = true <-> timer.id d = holdTimeout u) /\
  (is_hold (timer.fn d) = true -> timer.repeat d = false) /\
  0 < timer.id d.

(** An entry that is not a hold timer of the widget [u]. *)
Definition foreign_to (u : UIBaseElement) (d : timer.Entry) : Prop :=
  is_hold (timer.fn d) = false /\ timer.id d <> holdTimeout u.

(** The five event names of the widget's registrations. *)
Definition widget_events : list string :=
  ["pointerdown"; "pointerup"; "pointercancel"; "pointerenter";
   "pointerleave"]%string.

Definition widget_registrations : list Registration :=
  [ mkRegistration "pointerdown" This CallClicked;
    mkRegistration "pointerup" This CallRelease;
    mkRegistration "pointercancel" This CallRelease;
    mkRegistration "pointerenter" This CallEnter;
    mkRegistration "pointerleave" This CallLeave ].

Definition is_widget_registration (r : Registration) : bool :=
  Target_eqb (target r) This
  && existsb (String.eqb (eventName r)) widget_events.

(** The registry once the widget has released the events [names]. *)
Definition released_from (names : list string) (rs : list Registration)
  : list Registration :=
  fold_left (fun acc n => input.releasePointerEvent n This acc) names rs.

(** Actions that neither press the widget nor call [hold] by hand. *)
Definition passive (a : Action) : bool :=
  match a with
  | Press _ | HoldFires => false
  | _ => true
  end.

Definition total (dts : list Z) : Z := fold_right Z.add 0 dts.

(** ** Sample events and worlds *)

Definition primary_down : Pointer := mkPointer 0 1.
Definition secondary_down : Pointer := mkPointer 2 1.

Definition with_isHoldable (b : bool) (u : UIBaseElement) : UIBaseElement :=
  mkUIBaseElement (super u) (isClickable u) (holdThreshold u) b
    (hover u) (holdTimeout u) (released u) (floating u) (isKinematic u).

(** A widget configured for tap and hold, on a timer service that another
    client already uses. *)
Definition holdable_world : World :=
  mkWorld (with_isHoldable true (constructor false 10 20 64 32))
          (timer.mkTimer [timer.mkEntry OtherCallback 120 true 0 1] 1)
          [mkRegistration "pointerdown" (OtherObject 7) OtherHandler]
          [].

(** The same widget, activated and pressed with the primary button. *)
Definition pressed_world : World :=
  run (perform_all (hk := base_hooks) [Activate; Press primary_down])
      holdable_world.


(** ** Observations on scripts *)

(** Actions of the event bus, the scene graph and the timer service:
    everything but a call of [hold] made by hand. *)
Definition by_event (a : Action) : bool :=
  match a with HoldFires => false | _ => true end.

(** Actions that take no time. *)
Definition instant (a : Action) : bool :=
  match a with Wait _ => false | _ => true end.

(** The hover flag a script leaves, read off its enter and leave
    events. *)
Fixpoint hover_after (script : list Action) (h : bool) : bool :=
  match script with
  | [] => h
  | Enter _ :: rest => hover_after rest true
  | Leave _ :: rest => hover_after rest false
  | _ :: rest => hover_after rest h
  end.

(** The fields the constructor sets and no method writes afterwards,
    with the geometry kept by the base class. *)
Definition config (u : UIBaseElement)
  : bool * Z * bool * bool * bool * (Z * Z * Z * Z) :=
  (isClickable u, holdThreshold u, isHoldable u, floating u, isKinematic u,
   (pos_x (super u), pos_y (super u), width (super u), height (super u))).

(** The timers of the other clients of the service. *)
Definition others (l : list timer.Entry) : list timer.Entry :=
  filter (fun en => negb (is_hold (timer.fn en))) l.

(** The calls [hold] makes. *)
Definition from_hold (c : Call) : bool :=
  match c with
  | TimerClearTimeout _ | OnHold => true
  | _ => false
  end.

(** The widget once [hold] has run. *)
Definition after_hold (u : UIBaseElement) : UIBaseElement :=
  with_dirty true (with_holdTimeout (-1) u).

(** All that time going by can do to a world, the timer service apart:
    run [hold]. *)
Definition hold_only (w w1 : World) : Prop :=
  registry w1 = registry w /\
  (this w1 = this w \/ this w1 = after_hold (this w)) /\
  exists tr, trace w1 = trace w ++ tr /\ forallb from_hold tr = true.

(** The widget and the timer service agree: the timer is tracked,
    a released widget records no handle, at most one hold timer is
    pending, and the handle is the none sentinel exactly when none is. *)
Definition settled (w : World) : bool :=
  timers_tracked w
  && released_inv (this w)
  && match hold_timers w with
     | [] => holdTimeout (this w) =? NO_TIMEOUT
     | [_] => negb (holdTimeout (this w) =? NO_TIMEOUT)
     | _ => false
     end.

Definition with_isClickable (b : bool) (u : UIBaseElement) : UIBaseElement :=
  mkUIBaseElement (super u) b (holdThreshold u) (isHoldable u)
    (hover u) (holdTimeout u) (released u) (floating u) (isKinematic u).

(** The pressed sample widget, switched off for clicks afterwards. *)
Definition unclickable_world : World :=
  mkWorld (with_isClickable false (this pressed_world))
          (tmr pressed_world) (registry pressed_world) (trace pressed_world).

(** * Properties *)

Ltac unfold_methods :=
  unfold run, result, clicked, enter, release, leave, hold,
    onActivateEvent, onDeactivateEvent, call_hook, call_onHold,
    super_onActivateEvent, super_onDeactivateEvent,
    registerPointerEvent, releasePointerEvent,
    timer_clearTimeout, timer_setTimeout, log, write, read, bind, ret;
  cbn [fst snd this tmr registry trace].

Section Properties.

Context {hk : Hooks}.

(** ** What each method does to the world *)

Lemma clicked_ignored (e : Pointer) (w : World) :
  (button e =? 0) && isClickable (this w) = false ->
  clicked e w = (JUndefined, w).
Proof.
  intros Hgate. unfold clicked, bind, read. cbn [fst snd].
  rewrite Hgate. reflexivity.
Qed.

Lemma clicked_plain (e : Pointer) (w : World) :
  (button e =? 0) && isClickable (this w) = true ->
  isHoldable (this w) = false ->
  let u := with_released false (with_dirty true (this w)) in
  clicked e w =
    (onClick u e,
     mkWorld u (tmr w) (registry w) (trace w ++ [OnClick e])).
Proof.
  intros Hgate Hh. unfold_methods. rewrite Hgate.
  cbn [fst snd this tmr registry trace with_released with_dirty isHoldable].
  rewrite Hh. reflexivity.
Qed.

Lemma clicked_armed (e : Pointer) (w : World) :
  (button e =? 0) && isClickable (this w) = true ->
  isHoldable (this w) = true ->
  let old := holdTimeout (this w) in
  let h := timer.timerId (tmr w) + 1 in
  let u := with_released false (with_holdTimeout h
             (with_released false (with_dirty true (this w)))) in
  clicked e w =
    (onClick u e,
     mkWorld u
       (snd (timer.setTimeout HoldOfThis (holdThreshold (this w)) false
               (timer.clearTimeout old (tmr w))))
       (registry w)
       (trace w ++ [TimerClearTimeout old;
                    TimerSetTimeout HoldOfThis (holdThreshold (this w))
                                    false h;
                    OnClick e])).
Proof.
  intros Hgate Hh. unfold_methods. rewrite Hgate.
  cbn [fst snd this tmr registry trace with_released with_dirty isHoldable].
  rewrite Hh.
  cbn [fst snd this tmr registry trace with_released with_dirty
       with_holdTimeout holdTimeout holdThreshold timer.setTimeout
       timer.clearTimeout timer.timerId].
  rewrite <- !app_assoc. reflexivity.
Qed.

Lemma enter_eq (e : Pointer) (w : World) :
  let u := with_dirty true (with_hover true (this w)) in
  enter e w =
    (onOver u e, mkWorld u (tmr w) (registry w) (trace w ++ [OnOver e])).
Proof. reflexivity. Qed.

Lemma release_ignored (e : Pointer) (w : World) :
  released (this w) = true -> release e w = (JUndefined, w).
Proof.
  intros Hr. unfold release, bind, read. cbn [fst snd].
  rewrite Hr. reflexivity.
Qed.

Lemma release_effective (e : Pointer) (w : World) :
  released (this w) = false ->
  let h := holdTimeout (this w) in
  let u := with_holdTimeout (-1)
             (with_dirty true (with_released true (this w))) in
  release e w =
    (onRelease u e,
     mkWorld u (timer.clearTimeout h (tmr w)) (registry w)
             (trace w ++ [TimerClearTimeout h; OnRelease e])).
Proof.
  intros Hr. unfold_methods. rewrite Hr.
  cbn [negb fst snd this tmr registry trace with_released with_dirty
       holdTimeout].
  rewrite <- !app_assoc. reflexivity.
Qed.

Lemma hold_eq (w : World) :
  let h := holdTimeout (this w) in
  hold w =
    (tt,
     mkWorld (with_dirty true (with_holdTimeout (-1) (this w)))
             (timer.clearTimeout h (tmr w)) (registry w)
             (trace w ++ TimerClearTimeout h
                :: (if released (this w) then [] else [OnHold]))).
Proof.
  unfold_methods.
  cbn [released with_dirty with_holdTimeout].
  destruct (released (this w)); cbn [negb fst snd this tmr registry trace].
  - reflexivity.
  - rewrite <- !app_assoc. reflexivity.
Qed.

Lemma leave_eq (e : Pointer) (w : World) :
  leave e w =
    call_hook (OnOut e) onOut e
      (run (release e)
         (mkWorld (with_dirty true (with_hover false (this w)))
                  (tmr w) (registry w) (trace w))).
Proof. reflexivity. Qed.

Lemma onActivateEvent_eq (w : World) :
  onActivateEvent w =
    (tt,
     mkWorld (this w) (tmr w) (registry w ++ widget_registrations)
       (trace w ++
          [RegisterPointerEvent "pointerdown" This CallClicked;
           RegisterPointerEvent "pointerup" This CallRelease;
           RegisterPointerEvent "pointercancel" This CallRelease;
           RegisterPointerEvent "pointerenter" This CallEnter;
           RegisterPointerEvent "pointerleave" This CallLeave;
           SuperOnActivateEvent])).
Proof.
  unfold_methods. unfold input.registerPointerEvent, widget_registrations.
  rewrite <- !app_assoc. reflexivity.
Qed.

Lemma onDeactivateEvent_eq (w : World) :
  let h := holdTimeout (this w) in
  onDeactivateEvent w =
    (tt,
     mkWorld (with_holdTimeout (-1) (this w))
       (timer.clearTimeout h (tmr w))
       (released_from widget_events (registry w))
       (trace w ++
          [ReleasePointerEvent "pointerdown" This;
           ReleasePointerEvent "pointerup" This;
           ReleasePointerEvent "pointercancel" This;
           ReleasePointerEvent "pointerenter" This;
           ReleasePointerEvent "pointerleave" This;
           TimerClearTimeout h;
           SuperOnDeactivateEvent])).
Proof.
  unfold_methods. unfold released_from, widget_events. cbn [fold_left].
  rewrite <- !app_assoc. reflexivity.
Qed.

(** ** Lists, the timer service and the registry *)

Lemma filter_twice {A : Type} (f g : A -> bool) (l : list A) :
  filter f (filter g l) = filter (fun a => g a && f a) l.
Proof.
  induction l as [|a l IH]; cbn [filter]; [reflexivity|].
  destruct (g a); cbn [filter andb]; [|exact IH].
  destruct (f a); rewrite IH; reflexivity.
Qed.

Lemma pending_clearTimeout (h : Z) (s : timer.t) :
  timer.pending h (timer.clearTimeout h s) = false.
Proof.
  unfold timer.pending, timer.clearTimeout. cbn [timer.timers].
  induction (timer.timers s) as [|en l IH]; cbn [filter existsb];
    [reflexivity|].
  unfold timer.keeps at 1.
  destruct (timer.id en =? h) eqn:E; cbn [negb existsb]; [exact IH|].
  rewrite E. exact IH.
Qed.

Lemma released_from_filter (names : list string) (rs : list Registration) :
  released_from names rs =
    filter (fun r => negb (Target_eqb (target r) This
                           && existsb (String.eqb (eventName r)) names)) rs.
Proof.
  unfold released_from. revert rs.
  induction names as [|n ns IH]; intros rs; cbn [fold_left existsb].
  - rewrite <- (filter_ext (fun _ => true)).
    + induction rs as [|r rs IHrs]; cbn [filter]; congruence.
    + intros r. rewrite andb_false_r. reflexivity.
  - rewrite IH. unfold input.releasePointerEvent. rewrite filter_twice.
    apply filter_ext. intros r. unfold registered_as.
    destruct (Target_eqb (target r) This), (String.eqb (eventName r) n),
      (existsb (String.eqb (eventName r)) ns); reflexivity.
Qed.


(** ** The claims on single methods *)

(** C9: after construction with any (x, y, w, h) the configuration fields
    are isClickable = true, holdThreshold = 250, isHoldable = false,
    hover = false, released = true, holdTimeout = -1 (the none sentinel),
    floating = true and isKinematic = false. *)
Theorem constructor_fields (d0 : bool) (x y w h : Z) :
  let u := constructor d0 x y w h in
  isClickable u = true /\ holdThreshold u = 250 /\ isHoldable u = false /\
  hover u = false /\ released u = true /\ holdTimeout u = -1 /\
  holdTimeout u = NO_TIMEOUT /\ floating u = true /\ isKinematic u = false.
Proof. cbn. repeat split; reflexivity. Qed.

(** C5: for an event whose button is not 0, and likewise when
    isClickable is false, [clicked] is a no-op: the whole world, hence
    released, dirty, hover and the timer handle, is unchanged, nothing is
    logged (so onClick is not invoked) and the result is undefined. *)
Theorem clicked_gate (e : Pointer) (w : World) :
  button e <> 0 \/ isClickable (this w) = false ->
  clicked e w = (JUndefined, w) /\
  released (this (run (clicked e) w)) = released (this w) /\
  dirty (super (this (run (clicked e) w))) = dirty (super (this w)) /\
  hover (this (run (clicked e) w)) = hover (this w) /\
  holdTimeout (this (run (clicked e) w)) = holdTimeout (this w) /\
  tmr (run (clicked e) w) = tmr w /\
  count is_OnClick (run (clicked e) w) = count is_OnClick w.
Proof.
  intros Hgate.
  assert (Hno : clicked e w = (JUndefined, w)).
  { apply clicked_ignored. destruct Hgate as [Hb | Hc].
    - apply Z.eqb_neq in Hb. rewrite Hb. reflexivity.
    - rewrite Hc. apply andb_false_r. }
  unfold run. rewrite Hno. cbn [snd]. repeat split; reflexivity.
Qed.

(** C10: [clicked], [release] and [hold] leave the hover flag as it is,
    in every state and for every event; so do activation and
    deactivation.  Only [enter] and [leave] write it. *)
Theorem hover_frame (e : Pointer) (w : World) :
  hover (this (run (clicked e) w)) = hover (this w) /\
  hover (this (run (release e) w)) = hover (this w) /\
  hover (this (run hold w)) = hover (this w) /\
  hover (this (run onActivateEvent w)) = hover (this w) /\
  hover (this (run onDeactivateEvent w)) = hover (this w) /\
  hover (this (run (enter e) w)) = true /\
  hover (this (run (leave e) w)) = false.
Proof.
  repeat apply conj.
  - destruct ((button e =? 0) && isClickable (this w)) eqn:Hgate.
    + destruct (isHoldable (this w)) eqn:Hh; unfold run.
      * rewrite (clicked_armed e w Hgate Hh). reflexivity.
      * rewrite (clicked_plain e w Hgate Hh). reflexivity.
    + unfold run. rewrite (clicked_ignored e w Hgate). reflexivity.
  - destruct (released (this w)) eqn:Hr; unfold run.
    + rewrite (release_ignored e w Hr). reflexivity.
    + rewrite (release_effective e w Hr). reflexivity.
  - unfold run. rewrite hold_eq. reflexivity.
  - unfold run. rewrite onActivateEvent_eq. reflexivity.
  - unfold run. rewrite onDeactivateEvent_eq. reflexivity.
  - reflexivity.
  - destruct (released (this w)) eqn:Hr; unfold run; rewrite leave_eq;
      unfold run.
    + rewrite release_ignored by exact Hr. reflexivity.
    + rewrite release_effective by exact Hr. reflexivity.
Qed.

(** C2: [release] is idempotent.  With released == false it sets
    released, marks the widget dirty, cancels the hold timer and resets
    the handle, calls onRelease once and returns what the hook returns;
    with released == true it changes nothing and calls no hook.  A second
    release right after a first one is therefore always ignored, and two
    releases in a row on a pressed widget call onRelease exactly once. *)
Theorem release_idempotent (e e' : Pointer) (w : World) :
  let w1 := run (release e) w in
  (released (this w) = false ->
     released (this w1) = true /\
     dirty (super (this w1)) = true /\
     holdTimeout (this w1) = NO_TIMEOUT /\
     tmr w1 = timer.clearTimeout (holdTimeout (this w)) (tmr w) /\
     timer.pending (holdTimeout (this w)) (tmr w1) = false /\
     trace w1 =
       trace w ++ [TimerClearTimeout (holdTimeout (this w)); OnRelease e] /\
     result (release e) w = onRelease (this w1) e /\
     count is_OnRelease w1 = S (count is_OnRelease w)) /\
  (released (this w) = true -> release e w = (JUndefined, w)) /\
  release e' w1 = (JUndefined, w1) /\
  (released (this w) = false ->
     count is_OnRelease (run (release e ;; release e') w)
     = S (count is_OnRelease w)).
Proof.
  cbn zeta.
  assert (Hfirst : released (this w) = false ->
            count is_OnRelease (run (release e) w)
            = S (count is_OnRelease w)).
  { intros Hr. unfold run, count. rewrite (release_effective e w Hr).
    cbn [snd trace]. rewrite filter_app, length_app. cbn. lia. }
  assert (Hsecond : release e' (run (release e) w)
                    = (JUndefined, run (release e) w)).
  { apply release_ignored. unfold run.
    destruct (released (this w)) eqn:Hr.
    - rewrite (release_ignored e w Hr). exact Hr.
    - rewrite (release_effective e w Hr). reflexivity. }
  repeat apply conj.
  - intros Hr. unfold run, result. rewrite (release_effective e w Hr).
    cbn [fst snd this tmr trace].
    repeat apply conj; try reflexivity.
    + apply pending_clearTimeout.
    + pose proof (Hfirst Hr) as Hc. unfold run in Hc.
      rewrite (release_effective e w Hr) in Hc. exact Hc.
  - apply release_ignored.
  - exact Hsecond.
  - intros Hr. unfold run at 1, bind. fold (run (release e) w).
    rewrite Hsecond. cbn [snd]. apply Hfirst, Hr.
Qed.

Lemma released_inv_methods (e : Pointer) (w : World) :
  released_inv (this w) = true ->
  released_inv (this (run (clicked e) w)) = true /\
  released_inv (this (run (enter e) w)) = true /\
  released_inv (this (run (leave e) w)) = true /\
  released_inv (this (run (release e) w)) = true /\
  released_inv (this (run hold w)) = true /\
  released_inv (this (run onActivateEvent w)) = true /\
  released_inv (this (run onDeactivateEvent w)) = true.
Proof.
  intros Hinv. repeat apply conj.
  - destruct ((button e =? 0) && isClickable (this w)) eqn:Hgate.
    + destruct (isHoldable (this w)) eqn:Hh; unfold run.
      * rewrite (clicked_armed e w Hgate Hh). reflexivity.
      * rewrite (clicked_plain e w Hgate Hh). reflexivity.
    + unfold run. rewrite (clicked_ignored e w Hgate). exact Hinv.
  - exact Hinv.
  - destruct (released (this w)) eqn:Hr; unfold run; rewrite leave_eq;
      unfold run.
    + rewrite release_ignored by exact Hr. cbn [call_hook].
      unfold released_inv in *. cbn. rewrite Hr in *. exact Hinv.
    + rewrite release_effective by exact Hr. reflexivity.
  - destruct (released (this w)) eqn:Hr; unfold run.
    + rewrite (release_ignored e w Hr). exact Hinv.
    + rewrite (release_effective e w Hr). reflexivity.
  - unfold run. rewrite hold_eq. unfold released_inv. cbn.
    apply implb_true_r.
  - unfold run. rewrite onActivateEvent_eq. exact Hinv.
  - unfold run. rewrite onDeactivateEvent_eq. unfold released_inv. cbn.
    apply implb_true_r.
Qed.

(** C6: in every state [leave] clears hover, marks the widget dirty,
    performs a release, then calls onOut and returns what the hook
    returns.  The widget is released afterwards; when a press was active
    the hold timer is cancelled, the handle reset and onRelease called
    before onOut. *)
Theorem leave_releases (e : Pointer) (w : World) :
  let w1 := run (leave e) w in
  let entered :=
    mkWorld (with_dirty true (with_hover false (this w)))
            (tmr w) (registry w) (trace w) in
  hover (this w1) = false /\
  dirty (super (this w1)) = true /\
  released (this w1) = true /\
  w1 = run (log (OnOut e)) (run (release e) entered) /\
  result (leave e) w = onOut (this w1) e /\
  (released (this w) = false ->
     holdTimeout (this w1) = NO_TIMEOUT /\
     tmr w1 = timer.clearTimeout (holdTimeout (this w)) (tmr w) /\
     timer.pending (holdTimeout (this w)) (tmr w1) = false /\
     trace w1 = trace w ++ [TimerClearTimeout (holdTimeout (this w));
                            OnRelease e; OnOut e]) /\
  (released (this w) = true ->
     holdTimeout (this w1) = holdTimeout (this w) /\
     tmr w1 = tmr w /\
     trace w1 = trace w ++ [OnOut e]).
Proof.
  cbn zeta. unfold run, result. rewrite leave_eq. unfold run.
  destruct (released (this w)) eqn:Hr.
  - rewrite release_ignored by exact Hr.
    cbn. repeat apply conj; try reflexivity; try congruence.
    intros _. repeat apply conj; reflexivity.
  - rewrite release_effective by exact Hr.
    cbn. repeat apply conj; try reflexivity; try congruence.
    intros _. repeat apply conj; try reflexivity.
    + apply pending_clearTimeout.
    + rewrite <- !app_assoc. reflexivity.
Qed.


(** ** The widget keeps track of its hold timer *)

Lemma entry_ok_spec (u : UIBaseElement) (n : Z) (en : timer.Entry) :
  entry_ok u n en = true <->
  (is_hold (timer.fn en) = true <-> timer.id en = holdTimeout u) /\
  (is_hold (timer.fn en) = true -> timer.repeat en = false) /\
  0 < timer.id en <= n.
Proof.
  unfold entry_ok. rewrite !andb_true_iff, Z.ltb_lt, Z.leb_le.
  destruct (is_hold (timer.fn en)), (timer.repeat en);
    cbn [implb negb Bool.eqb];
    destruct (Z.eqb_spec (timer.id en) (holdTimeout u)); intuition congruence.
Qed.

Lemma tracked_spec (w : World) :
  timers_tracked w = true <->
  Forall (fun en => entry_ok (this w) (timer.timerId (tmr w)) en = true)
         (timer.timers (tmr w)) /\
  0 <= timer.timerId (tmr w) /\
  holdTimeout (this w) <= timer.timerId (tmr w).
Proof.
  unfold timers_tracked.
  rewrite !andb_true_iff, !Z.leb_le, forallb_forall, Forall_forall.
  tauto.
Qed.

Lemma tracked_same_handle (u : UIBaseElement) (w : World)
  (rs : list Registration) (tr : list Call) :
  holdTimeout u = holdTimeout (this w) ->
  timers_tracked (mkWorld u (tmr w) rs tr) = timers_tracked w.
Proof.
  intros Hh. unfold timers_tracked, entry_ok. cbn [this tmr].
  rewrite Hh. reflexivity.
Qed.

Lemma holds_cleared (w : World) :
  timers_tracked w = true ->
  holds (filter (timer.keeps (holdTimeout (this w))) (timer.timers (tmr w)))
  = [].
Proof.
  intros Ht. apply tracked_spec in Ht. destruct Ht as [Hall _].
  unfold holds. induction Hall as [|en l Hen _ IH]; [reflexivity|].
  apply entry_ok_spec in Hen. destruct Hen as [Hiff _].
  cbn [filter]. unfold timer.keeps at 1.
  destruct (Z.eqb_spec (timer.id en) (holdTimeout (this w))) as [E|E];
    cbn [negb filter]; [exact IH|].
  destruct (is_hold (timer.fn en)) eqn:Hf; [|exact IH].
  exfalso. apply E, Hiff. reflexivity.
Qed.

Lemma tracked_clear (u : UIBaseElement) (w : World)
  (rs : list Registration) (tr : list Call) :
  timers_tracked w = true ->
  holdTimeout u = -1 ->
  timers_tracked
    (mkWorld u (timer.clearTimeout (holdTimeout (this w)) (tmr w)) rs tr)
  = true.
Proof.
  intros Ht Hu. apply tracked_spec in Ht. destruct Ht as (Hall & Hn & Hh).
  apply tracked_spec. cbn [this tmr timer.clearTimeout timer.timers
                           timer.timerId].
  repeat apply conj; [|lia|lia].
  apply Forall_forall. intros en Hin. apply filter_In in Hin.
  destruct Hin as [Hin Hkeep].
  rewrite Forall_forall in Hall. specialize (Hall en Hin).
  apply entry_ok_spec in Hall. apply entry_ok_spec.
  unfold timer.keeps in Hkeep. apply negb_true_iff, Z.eqb_neq in Hkeep.
  destruct Hall as (Hiff & Hrep & Hpos).
  repeat apply conj; try assumption; try lia.
  intros Hf. exfalso. apply Hkeep, Hiff, Hf.
Qed.

Lemma tracked_armed (u : UIBaseElement) (w : World) (d : Z)
  (rs : list Registration) (tr : list Call) :
  timers_tracked w = true ->
  holdTimeout u = timer.timerId (tmr w) + 1 ->
  timers_tracked
    (mkWorld u
       (snd (timer.setTimeout HoldOfThis d false
               (timer.clearTimeout (holdTimeout (this w)) (tmr w))))
       rs tr)
  = true.
Proof.
  intros Ht Hu. apply tracked_spec in Ht. destruct Ht as (Hall & Hn & Hh).
  apply tracked_spec.
  cbn [this tmr snd timer.setTimeout timer.clearTimeout timer.timers
       timer.timerId].
  repeat apply conj; [|lia|lia].
  apply Forall_app. split.
  - apply Forall_forall. intros en Hin. apply filter_In in Hin.
    destruct Hin as [Hin Hkeep].
    rewrite Forall_forall in Hall. specialize (Hall en Hin).
    apply entry_ok_spec in Hall. apply entry_ok_spec.
    unfold timer.keeps in Hkeep. apply negb_true_iff, Z.eqb_neq in Hkeep.
    destruct Hall as (Hiff & Hrep & Hpos).
    repeat apply conj; try assumption; try lia.
    intros Hf. exfalso. apply Hkeep, Hiff, Hf.
  - constructor; [|constructor]. apply entry_ok_spec.
    cbn [timer.fn timer.id timer.repeat is_hold].
    repeat apply conj; try reflexivity; try lia.
Qed.

Lemma tracked_filter (f : timer.Entry -> bool) (w : World) :
  timers_tracked w = true ->
  timers_tracked
    (mkWorld (this w)
       (timer.mkTimer (filter f (timer.timers (tmr w)))
                      (timer.timerId (tmr w)))
       (registry w) (trace w)) = true.
Proof.
  intros Ht. apply tracked_spec in Ht. destruct Ht as (Hall & Hn & Hh).
  apply tracked_spec. cbn [this tmr timer.timers timer.timerId].
  repeat apply conj; try assumption.
  apply Forall_forall. intros en Hin. apply filter_In in Hin.
  rewrite Forall_forall in Hall. apply Hall, Hin.
Qed.

Lemma tracked_map (f : timer.Entry -> timer.Entry) (w : World) :
  (forall u n en, entry_ok u n (f en) = entry_ok u n en) ->
  timers_tracked w = true ->
  timers_tracked
    (mkWorld (this w)
       (timer.mkTimer (map f (timer.timers (tmr w)))
                      (timer.timerId (tmr w)))
       (registry w) (trace w)) = true.
Proof.
  intros Hf Ht. apply tracked_spec in Ht. destruct Ht as (Hall & Hn & Hh).
  apply tracked_spec. cbn [this tmr timer.timers timer.timerId].
  repeat apply conj; try assumption.
  apply Forall_map. revert Hall. apply Forall_impl.
  intros en Hen. rewrite Hf. exact Hen.
Qed.

Lemma entry_ok_tick (dt : Z) (u : UIBaseElement) (n : Z) (en : timer.Entry) :
  entry_ok u n (timer.tick dt en) = entry_ok u n en.
Proof. reflexivity. Qed.

Lemma entry_ok_rearm (h : Z) (u : UIBaseElement) (n : Z) (en : timer.Entry) :
  entry_ok u n (timer.rearm h en) = entry_ok u n en.
Proof. unfold timer.rearm. destruct (timer.id en =? h); reflexivity. Qed.

Lemma tracked_holds_handle (w : World) :
  timers_tracked w = true ->
  Forall (fun en => is_hold (timer.fn en) = true ->
                    timer.id en = holdTimeout (this w))
         (timer.timers (tmr w)).
Proof.
  intros Ht. apply tracked_spec in Ht. destruct Ht as (Hall & _).
  revert Hall. apply Forall_impl. intros en Hen Hf.
  apply entry_ok_spec in Hen. apply Hen, Hf.
Qed.

Lemma holds_keep_foreign (i : Z) (l : list timer.Entry) :
  Forall (fun en => is_hold (timer.fn en) = true -> timer.id en <> i) l ->
  holds (filter (timer.keeps i) l) = holds l.
Proof.
  unfold holds. induction 1 as [|en l Hen _ IH]; [reflexivity|].
  cbn [filter]. unfold timer.keeps at 1.
  destruct (Z.eqb_spec (timer.id en) i) as [E|E]; cbn [negb filter].
  - destruct (is_hold (timer.fn en)); [|exact IH].
    exfalso. apply Hen; [reflexivity|exact E].
  - rewrite IH. reflexivity.
Qed.

Lemma holds_rearm_foreign (i : Z) (l : list timer.Entry) :
  Forall (fun en => is_hold (timer.fn en) = true -> timer.id en <> i) l ->
  holds (map (timer.rearm i) l) = holds l.
Proof.
  unfold holds. induction 1 as [|en l Hen _ IH]; [reflexivity|].
  cbn [map filter]. unfold timer.rearm at 1 2.
  destruct (Z.eqb_spec (timer.id en) i) as [E|E]; cbn [timer.fn].
  - destruct (is_hold (timer.fn en)); [|exact IH].
    exfalso. apply Hen; [reflexivity|exact E].
  - rewrite IH. reflexivity.
Qed.

Lemma holds_tick (dt : Z) (l : list timer.Entry) :
  holds (map (timer.tick dt) l) = map (timer.tick dt) (holds l).
Proof.
  unfold holds. induction l as [|en l IH]; [reflexivity|].
  cbn [map filter timer.tick timer.fn].
  destruct (is_hold (timer.fn en)); cbn [map]; rewrite IH; reflexivity.
Qed.

Lemma holds_due (l : list timer.Entry) :
  holds (filter timer.due l) = filter timer.due (holds l).
Proof.
  unfold holds. rewrite !filter_twice. apply filter_ext.
  intros en. apply andb_comm.
Qed.

(** ** Firing due entries *)

Lemma take_foreign (d : timer.Entry) (w : World) :
  timers_tracked w = true ->
  foreign_to (this w) d ->
  let w1 := mkWorld (this w) (timer.take d (tmr w)) (registry w) (trace w) in
  timers_tracked w1 = true /\ hold_timers w1 = hold_timers w.
Proof.
  intros Ht [Hf Hid].
  assert (Hother : Forall (fun en => is_hold (timer.fn en) = true ->
                                     timer.id en <> timer.id d)
                          (timer.timers (tmr w))).
  { generalize (tracked_holds_handle w Ht). apply Forall_impl.
    intros en Hen Hh E. apply Hid. rewrite <- E. apply Hen, Hh. }
  cbn zeta. unfold timer.take, hold_timers.
  destruct (timer.repeat d); cbn [tmr timer.timers timer.clearTimeout].
  - split.
    + apply (tracked_map (timer.rearm (timer.id d)) w); [|exact Ht].
      intros. apply entry_ok_rearm.
    + apply holds_rearm_foreign, Hother.
  - split.
    + apply (tracked_filter (timer.keeps (timer.id d)) w Ht).
    + apply holds_keep_foreign, Hother.
Qed.

Lemma fire_foreign (d : timer.Entry) (w : World) :
  timers_tracked w = true ->
  foreign_to (this w) d ->
  let w1 := run (fire d) w in
  this w1 = this w /\ trace w1 = trace w /\ registry w1 = registry w /\
  hold_timers w1 = hold_timers w /\ timers_tracked w1 = true.
Proof.
  intros Ht Hd. cbn zeta. unfold run, fire.
  destruct (timer.pending (timer.id d) (tmr w)).
  - destruct (take_foreign d w Ht Hd) as [Ht1 Hh1].
    destruct Hd as [Hf _].
    destruct (timer.fn d); [discriminate|].
    cbn [run_callback ret snd this trace registry]. auto.
  - cbn [snd]. auto.
Qed.

Lemma fire_all_foreign (ds : list timer.Entry) (w : World) :
  timers_tracked w = true ->
  Forall (foreign_to (this w)) ds ->
  let w1 := run (fire_all ds) w in
  this w1 = this w /\ trace w1 = trace w /\ registry w1 = registry w /\
  hold_timers w1 = hold_timers w /\ timers_tracked w1 = true.
Proof.
  revert w. induction ds as [|d ds IH]; intros w Ht Hall; cbn zeta.
  - cbn. auto.
  - inversion Hall as [|d' ds' Hd Hds]; subst.
    destruct (fire_foreign d w Ht Hd) as (E1 & E2 & E3 & E4 & Ht1).
    change (run (fire_all (d :: ds)) w)
      with (run (fire_all ds) (run (fire d) w)).
    rewrite <- E1 in Hds.
    destruct (IH _ Ht1 Hds) as (F1 & F2 & F3 & F4 & Ht2).
    repeat apply conj; congruence.
Qed.

Lemma count_app (p : Call -> bool) (w : World) (u : UIBaseElement)
  (s : timer.t) (rs : list Registration) (tr : list Call) :
  count p (mkWorld u s rs (trace w ++ tr))
  = (count p w + List.length (filter p tr))%nat.
Proof. unfold count. cbn [trace]. rewrite filter_app, length_app. reflexivity. Qed.

Lemma pending_hold_timer (w : World) :
  timers_tracked w = true ->
  hold_timers w <> [] ->
  timer.pending (holdTimeout (this w)) (tmr w) = true.
Proof.
  intros Ht Hne. pose proof (tracked_holds_handle w Ht) as Hall.
  unfold hold_timers, holds in Hne. unfold timer.pending.
  destruct (filter _ _) as [|c l] eqn:Hfl; [congruence|].
  assert (Hin : In c (filter (fun en => is_hold (timer.fn en))
                             (timer.timers (tmr w)))).
  { rewrite Hfl. left. reflexivity. }
  apply filter_In in Hin. destruct Hin as [Hin Hc].
  apply existsb_exists. exists c. split; [exact Hin|].
  rewrite Forall_forall in Hall. apply Z.eqb_eq, (Hall c Hin Hc).
Qed.

(** The hold timer of the widget comes due and is fired. *)
Lemma fire_hold (d : timer.Entry) (w : World) :
  timers_tracked w = true ->
  snapshot_ok (this w) d ->
  is_hold (timer.fn d) = true ->
  hold_timers w <> [] ->
  let w1 := run (fire d) w in
  this w1 = with_dirty true (with_holdTimeout (-1) (this w)) /\
  trace w1 = trace w ++ TimerClearTimeout (holdTimeout (this w))
               :: (if released (this w) then [] else [OnHold]) /\
  registry w1 = registry w /\
  hold_timers w1 = [] /\ timers_tracked w1 = true.
Proof.
  intros Ht (Hiff & Hrep & _) Hf Hne. cbn zeta.
  assert (Hid : timer.id d = holdTimeout (this w)) by (apply Hiff, Hf).
  unfold run, fire. rewrite Hid, (pending_hold_timer w Ht Hne).
  destruct (timer.fn d); [|discriminate]. cbn [run_callback].
  unfold timer.take. rewrite (Hrep eq_refl), Hid.
  rewrite hold_eq. cbn [snd this tmr registry trace].
  pose proof (tracked_filter (timer.keeps (holdTimeout (this w))) w Ht)
    as Ht1.
  repeat apply conj; try reflexivity.
  - apply (holds_cleared _ Ht1).
  - apply (tracked_clear _ _ _ _ Ht1). reflexivity.
Qed.

Lemma snapshot_foreign (u : UIBaseElement) (d : timer.Entry) :
  snapshot_ok u d -> is_hold (timer.fn d) = false -> foreign_to u d.
Proof.
  intros (Hiff & _) Hf. split; [exact Hf|].
  intros E. apply Hiff in E. congruence.
Qed.

Lemma snapshot_after_hold (u u' : UIBaseElement) (ds : list timer.Entry) :
  Forall (snapshot_ok u) ds -> holds ds = [] -> holdTimeout u' = -1 ->
  Forall (foreign_to u') ds.
Proof.
  intros Hall Hno Hu. unfold holds in Hno.
  induction Hall as [|d ds Hd _ IH]; constructor.
  - cbn [filter] in Hno. destruct Hd as (_ & _ & Hpos).
    destruct (is_hold (timer.fn d)) eqn:Hf; [discriminate|].
    split; [exact Hf|lia].
  - apply IH. cbn [filter] in Hno.
    destruct (is_hold (timer.fn d)); [discriminate|exact Hno].
Qed.

(** Among the due entries exactly one is the widget's hold timer, the
    widget is pressed: onHold is called once. *)
Lemma fire_all_hold (ds : list timer.Entry) (d0 : timer.Entry) (w : World) :
  timers_tracked w = true ->
  released (this w) = false ->
  hold_timers w <> [] ->
  Forall (snapshot_ok (this w)) ds ->
  holds ds = [d0] ->
  let w1 := run (fire_all ds) w in
  count is_OnHold w1 = S (count is_OnHold w) /\
  hold_timers w1 = [] /\ timers_tracked w1 = true /\
  released (this w1) = false /\ holdTimeout (this w1) = -1.
Proof.
  revert w. induction ds as [|d ds IH]; intros w Ht Hr Hne Hall Hone;
    [discriminate|].
  inversion Hall as [|d' ds' Hd Hds]; subst. cbn zeta.
  change (run (fire_all (d :: ds)) w)
    with (run (fire_all ds) (run (fire d) w)).
  unfold holds in Hone. cbn [filter] in Hone.
  destruct (is_hold (timer.fn d)) eqn:Hf.
  - injection Hone as _ Hrest.
    destruct (fire_hold d w Ht Hd Hf Hne) as (E1 & E2 & E3 & E4 & Ht1).
    assert (Hfor : Forall (foreign_to (this (run (fire d) w))) ds).
    { apply (snapshot_after_hold (this w)); try assumption.
      rewrite E1. reflexivity. }
    destruct (fire_all_foreign ds _ Ht1 Hfor) as (F1 & F2 & F3 & F4 & Ht2).
    repeat apply conj.
    + unfold count. rewrite F2, E2, Hr, filter_app, length_app. cbn. lia.
    + congruence.
    + exact Ht2.
    + rewrite F1, E1. exact Hr.
    + rewrite F1, E1. reflexivity.
  - destruct (fire_foreign d w Ht (snapshot_foreign _ _ Hd Hf))
      as (E1 & E2 & E3 & E4 & Ht1).
    rewrite <- E1 in Hds, Hr. rewrite <- E4 in Hne.
    destruct (IH _ Ht1 Hr Hne Hds Hone) as (C & F4 & Ht2 & Fr & Fh).
    repeat apply conj; try assumption.
    rewrite C. unfold count. rewrite E2. reflexivity.
Qed.

(** ** Letting time pass *)

Lemma tracked_snapshot (w : World) (dt : Z) :
  timers_tracked w = true ->
  Forall (snapshot_ok (this w))
         (filter timer.due (map (timer.tick dt) (timer.timers (tmr w)))).
Proof.
  intros Ht. apply tracked_spec in Ht. destruct Ht as (Hall & _).
  apply Forall_forall. intros d Hin. apply filter_In in Hin.
  destruct Hin as [Hin _]. apply in_map_iff in Hin.
  destruct Hin as (en & <- & Hin).
  rewrite Forall_forall in Hall. specialize (Hall en Hin).
  apply entry_ok_spec in Hall. destruct Hall as (Hiff & Hrep & Hpos).
  repeat apply conj; cbn [timer.tick timer.fn timer.id timer.repeat];
    try apply Hiff; try assumption; lia.
Qed.

(** No hold timer of the widget is due: time passes and the widget does
    not notice. *)
Lemma timer_update_quiet (dt : Z) (w : World) :
  timers_tracked w = true ->
  filter timer.due (map (timer.tick dt) (hold_timers w)) = [] ->
  let w1 := run (timer_update dt) w in
  this w1 = this w /\ trace w1 = trace w /\ registry w1 = registry w /\
  hold_timers w1 = map (timer.tick dt) (hold_timers w) /\
  timers_tracked w1 = true.
Proof.
  intros Ht Hnone. cbn zeta. unfold run, timer_update.
  set (ts := map (timer.tick dt) (timer.timers (tmr w))).
  set (w0 := mkWorld (this w) (timer.mkTimer ts (timer.timerId (tmr w)))
                     (registry w) (trace w)).
  assert (Ht0 : timers_tracked w0 = true).
  { apply (tracked_map (timer.tick dt) w); [|exact Ht].
    intros. apply entry_ok_tick. }
  assert (Hfor : Forall (foreign_to (this w0)) (filter timer.due ts)).
  { pose proof (tracked_snapshot w dt Ht) as Hsnap. fold ts in Hsnap.
    assert (Hno : holds (filter timer.due ts) = []).
    { rewrite holds_due. unfold ts. rewrite holds_tick. exact Hnone. }
    revert Hsnap Hno. generalize (filter timer.due ts) as ds.
    unfold holds. induction ds as [|d ds IH]; intros Hsnap Hno;
      constructor; inversion Hsnap; subst; cbn [filter] in Hno;
      destruct (is_hold (timer.fn d)) eqn:Hf; try discriminate.
    - apply snapshot_foreign; assumption.
    - apply IH; assumption. }
  destruct (fire_all_foreign _ w0 Ht0 Hfor) as (F1 & F2 & F3 & F4 & Ht1).
  fold (run (fire_all (filter timer.due ts)) w0).
  repeat apply conj; try assumption.
  rewrite F4. unfold hold_timers, w0, ts. cbn [tmr timer.timers].
  apply holds_tick.
Qed.

(** The hold timer of a pressed widget comes due: onHold is called
    exactly once and no hold timer is left. *)
Lemma timer_update_fires (dt : Z) (en : timer.Entry) (w : World) :
  timers_tracked w = true ->
  released (this w) = false ->
  hold_timers w = [en] ->
  timer.due (timer.tick dt en) = true ->
  let w1 := run (timer_update dt) w in
  count is_OnHold w1 = S (count is_OnHold w) /\
  hold_timers w1 = [] /\ timers_tracked w1 = true /\
  released (this w1) = false /\ holdTimeout (this w1) = -1.
Proof.
  intros Ht Hr Hone Hdue. cbn zeta. unfold run, timer_update.
  set (ts := map (timer.tick dt) (timer.timers (tmr w))).
  set (w0 := mkWorld (this w) (timer.mkTimer ts (timer.timerId (tmr w)))
                     (registry w) (trace w)).
  assert (Ht0 : timers_tracked w0 = true).
  { apply (tracked_map (timer.tick dt) w); [|exact Ht].
    intros. apply entry_ok_tick. }
  assert (Hh0 : hold_timers w0 = [timer.tick dt en]).
  { unfold hold_timers, w0, ts. cbn [tmr timer.timers].
    rewrite holds_tick. fold (hold_timers w). rewrite Hone. reflexivity. }
  assert (Hds : holds (filter timer.due ts) = [timer.tick dt en]).
  { rewrite holds_due. fold (hold_timers w0) in Hh0.
    change (holds ts) with (hold_timers w0). rewrite Hh0.
    cbn [filter]. rewrite Hdue. reflexivity. }
  fold (run (fire_all (filter timer.due ts)) w0).
  apply (fire_all_hold _ (timer.tick dt en) w0); try assumption.
  - rewrite Hh0. discriminate.
  - apply (tracked_snapshot w dt Ht).
Qed.

Lemma holds_filter (f : timer.Entry -> bool) (l : list timer.Entry) :
  holds (filter f l) = filter f (holds l).
Proof.
  unfold holds. rewrite !filter_twice. apply filter_ext.
  intros en. apply andb_comm.
Qed.

(** ** Every method keeps the timer tracked *)

Lemma tracked_clicked (e : Pointer) (w : World) :
  timers_tracked w = true -> timers_tracked (run (clicked e) w) = true.
Proof.
  intros Ht. unfold run.
  destruct ((button e =? 0) && isClickable (this w)) eqn:Hgate.
  - destruct (isHoldable (this w)) eqn:Hh.
    + rewrite (clicked_armed e w Hgate Hh). cbn [snd].
      apply tracked_armed; [exact Ht|reflexivity].
    + rewrite (clicked_plain e w Hgate Hh). cbn [snd].
      rewrite tracked_same_handle; [exact Ht|reflexivity].
  - rewrite (clicked_ignored e w Hgate). exact Ht.
Qed.

Lemma tracked_release (e : Pointer) (w : World) :
  timers_tracked w = true -> timers_tracked (run (release e) w) = true.
Proof.
  intros Ht. unfold run. destruct (released (this w)) eqn:Hr.
  - rewrite (release_ignored e w Hr). exact Ht.
  - rewrite (release_effective e w Hr). cbn [snd].
    apply tracked_clear; [exact Ht|reflexivity].
Qed.

Lemma tracked_enter (e : Pointer) (w : World) :
  timers_tracked w = true -> timers_tracked (run (enter e) w) = true.
Proof.
  intros Ht. unfold run. rewrite enter_eq. cbn [snd].
  rewrite tracked_same_handle; [exact Ht|reflexivity].
Qed.

Lemma tracked_leave (e : Pointer) (w : World) :
  timers_tracked w = true -> timers_tracked (run (leave e) w) = true.
Proof.
  intros Ht. unfold run. rewrite leave_eq.
  set (w0 := mkWorld (with_dirty true (with_hover false (this w)))
                     (tmr w) (registry w) (trace w)).
  assert (Ht0 : timers_tracked w0 = true).
  { unfold w0. rewrite tracked_same_handle; [exact Ht|reflexivity]. }
  pose proof (tracked_release e w0 Ht0) as Ht1.
  unfold call_hook, log, read, bind, ret. cbn [fst snd].
  rewrite <- Ht1. apply (tracked_same_handle _ (run (release e) w0)).
  reflexivity.
Qed.

Lemma tracked_hold (w : World) :
  timers_tracked w = true -> timers_tracked (run hold w) = true.
Proof.
  intros Ht. unfold run. rewrite hold_eq. cbn [snd].
  apply tracked_clear; [exact Ht|reflexivity].
Qed.

Lemma tracked_onActivateEvent (w : World) :
  timers_tracked w = true -> timers_tracked (run onActivateEvent w) = true.
Proof.
  intros Ht. unfold run. rewrite onActivateEvent_eq. cbn [snd].
  rewrite tracked_same_handle; [exact Ht|reflexivity].
Qed.

Lemma tracked_onDeactivateEvent (w : World) :
  timers_tracked w = true -> timers_tracked (run onDeactivateEvent w) = true.
Proof.
  intros Ht. unfold run. rewrite onDeactivateEvent_eq. cbn [snd].
  apply tracked_clear; [exact Ht|reflexivity].
Qed.

Lemma tracked_fire_all (ds : list timer.Entry) (w : World) :
  timers_tracked w = true ->
  Forall (fun d => 0 < timer.id d /\
                   (is_hold (timer.fn d) = true -> timer.repeat d = false) /\
                   (is_hold (timer.fn d) = false ->
                    timer.id d <> holdTimeout (this w))) ds ->
  timers_tracked (run (fire_all ds) w) = true.
Proof.
  revert w. induction ds as [|d ds IH]; intros w Ht Hall; [exact Ht|].
  inversion Hall as [|d' ds' (Hpos & Hrep & Hfor) Hds]; subst.
  change (run (fire_all (d :: ds)) w)
    with (run (fire_all ds) (run (fire d) w)).
  destruct (is_hold (timer.fn d)) eqn:Hf.
  - unfold run at 2. unfold fire.
    destruct (timer.pending (timer.id d) (tmr w)); cbn [snd];
      [|apply IH; assumption].
    destruct (timer.fn d); [|discriminate]. cbn [run_callback].
    unfold timer.take. rewrite (Hrep eq_refl).
    pose proof (tracked_filter (timer.keeps (timer.id d)) w Ht) as Ht1.
    fold (run hold (mkWorld (this w) (timer.clearTimeout (timer.id d) (tmr w))
                            (registry w) (trace w))).
    apply IH.
    + apply tracked_hold, Ht1.
    + unfold run. rewrite hold_eq. cbn [snd this holdTimeout with_dirty
                                          with_holdTimeout].
      revert Hds. apply Forall_impl. intros a (Ha & Hb & _).
      repeat apply conj; try assumption. intros _. lia.
  - destruct (fire_foreign d w Ht (conj Hf (Hfor eq_refl)))
      as (E1 & _ & _ & _ & Ht1).
    apply IH; [exact Ht1|]. rewrite E1. exact Hds.
Qed.

Lemma tracked_timer_update (dt : Z) (w : World) :
  timers_tracked w = true -> timers_tracked (run (timer_update dt) w) = true.
Proof.
  intros Ht. unfold run, timer_update.
  set (ts := map (timer.tick dt) (timer.timers (tmr w))).
  set (w0 := mkWorld (this w) (timer.mkTimer ts (timer.timerId (tmr w)))
                     (registry w) (trace w)).
  fold (run (fire_all (filter timer.due ts)) w0).
  apply tracked_fire_all.
  - apply (tracked_map (timer.tick dt) w); [|exact Ht].
    intros. apply entry_ok_tick.
  - generalize (tracked_snapshot w dt Ht). fold ts. apply Forall_impl.
    intros d (Hiff & Hrep & Hpos). repeat apply conj; try assumption.
    intros Hf E. apply Hiff in E. congruence.
Qed.

(** ** Scripts *)

Lemma perform_all_app (s1 s2 : list Action) (w : World) :
  run (perform_all (s1 ++ s2)) w
  = run (perform_all s2) (run (perform_all s1) w).
Proof.
  revert w. induction s1 as [|a s1 IH]; intros w; [reflexivity|].
  change (run (perform_all ((a :: s1) ++ s2)) w)
    with (run (perform_all (s1 ++ s2)) (run (perform a) w)).
  rewrite IH. reflexivity.
Qed.

Lemma tracked_perform (a : Action) (w : World) :
  timers_tracked w = true -> timers_tracked (run (perform a) w) = true.
Proof.
  intros Ht. destruct a.
  - apply (tracked_clicked e w Ht).
  - apply (tracked_release e w Ht).
  - apply (tracked_enter e w Ht).
  - apply (tracked_leave e w Ht).
  - apply (tracked_hold w Ht).
  - apply (tracked_onActivateEvent w Ht).
  - apply (tracked_onDeactivateEvent w Ht).
  - apply (tracked_timer_update dt w Ht).
Qed.

(** Whatever happens to a tracked world, it stays tracked; a newly
    constructed widget on an idle timer service is tracked. *)
Lemma tracked_script (script : list Action) (w : World) :
  timers_tracked w = true ->
  timers_tracked (run (perform_all script) w) = true.
Proof.
  revert w. induction script as [|a script IH]; intros w Ht; [exact Ht|].
  change (run (perform_all (a :: script)) w)
    with (run (perform_all script) (run (perform a) w)).
  apply IH, tracked_perform, Ht.
Qed.

Lemma tracked_fresh (d0 : bool) (x y wd ht : Z) :
  timers_tracked (fresh_world d0 x y wd ht) = true.
Proof. reflexivity. Qed.

(** ** A widget without a pending hold timer *)

Lemma quiet_clear (u : UIBaseElement) (h : Z) (w : World)
  (rs : list Registration) (tr : list Call) :
  hold_timers w = [] ->
  hold_timers (mkWorld u (timer.clearTimeout h (tmr w)) rs tr) = [].
Proof.
  intros Hq. unfold hold_timers in *.
  cbn [tmr timer.clearTimeout timer.timers].
  rewrite holds_filter, Hq. reflexivity.
Qed.

Lemma quiet_release (e : Pointer) (w : World) :
  timers_tracked w = true -> hold_timers w = [] ->
  let w1 := run (release e) w in
  count is_OnHold w1 = count is_OnHold w /\ hold_timers w1 = [] /\
  timers_tracked w1 = true.
Proof.
  intros Ht Hq. cbn zeta. split; [|split].
  - unfold run. destruct (released (this w)) eqn:Hr.
    + rewrite (release_ignored e w Hr). reflexivity.
    + rewrite (release_effective e w Hr). cbn [snd].
      rewrite count_app. cbn. lia.
  - unfold run. destruct (released (this w)) eqn:Hr.
    + rewrite (release_ignored e w Hr). exact Hq.
    + rewrite (release_effective e w Hr). cbn [snd].
      apply quiet_clear, Hq.
  - apply tracked_release, Ht.
Qed.

Lemma quiet_perform (a : Action) (w : World) :
  timers_tracked w = true -> hold_timers w = [] -> passive a = true ->
  let w1 := run (perform a) w in
  count is_OnHold w1 = count is_OnHold w /\ hold_timers w1 = [] /\
  timers_tracked w1 = true.
Proof.
  intros Ht Hq Hp. cbn zeta.
  split; [|split; [|apply tracked_perform, Ht]];
    destruct a as [e|e|e|e| | | |dt]; try discriminate Hp.
  - apply (quiet_release e w Ht Hq).
  - change (run (perform (Enter e)) w) with (run (enter e) w).
    unfold run. rewrite enter_eq. cbn [snd].
    rewrite count_app. cbn. lia.
  - change (run (perform (Leave e)) w) with (run (leave e) w).
    unfold run. rewrite leave_eq.
    set (w0 := mkWorld (with_dirty true (with_hover false (this w)))
                       (tmr w) (registry w) (trace w)).
    assert (Ht0 : timers_tracked w0 = true).
    { unfold w0. rewrite tracked_same_handle; [exact Ht|reflexivity]. }
    destruct (quiet_release e w0 Ht0 Hq) as (C & _ & _).
    change (count is_OnHold w) with (count is_OnHold w0). rewrite <- C.
    unfold call_hook, log, read, bind, ret. cbn [fst snd].
    rewrite count_app. cbn. lia.
  - change (run (perform Activate) w) with (run onActivateEvent w).
    unfold run. rewrite onActivateEvent_eq. cbn [snd].
    rewrite count_app. cbn. lia.
  - change (run (perform Deactivate) w) with (run onDeactivateEvent w).
    unfold run. rewrite onDeactivateEvent_eq. cbn [snd].
    rewrite count_app. cbn. lia.
  - change (run (perform (Wait dt)) w) with (run (timer_update dt) w).
    destruct (timer_update_quiet dt w Ht) as (_ & E & _).
    { rewrite Hq. reflexivity. }
    unfold count. rewrite E. reflexivity.
  - apply (quiet_release e w Ht Hq).
  - exact Hq.
  - change (run (perform (Leave e)) w) with (run (leave e) w).
    unfold run. rewrite leave_eq.
    set (w0 := mkWorld (with_dirty true (with_hover false (this w)))
                       (tmr w) (registry w) (trace w)).
    assert (Ht0 : timers_tracked w0 = true).
    { unfold w0. rewrite tracked_same_handle; [exact Ht|reflexivity]. }
    destruct (quiet_release e w0 Ht0 Hq) as (_ & Q & _).
    exact Q.
  - exact Hq.
  - change (run (perform Deactivate) w) with (run onDeactivateEvent w).
    unfold run. rewrite onDeactivateEvent_eq. cbn [snd].
    apply quiet_clear, Hq.
  - change (run (perform (Wait dt)) w) with (run (timer_update dt) w).
    destruct (timer_update_quiet dt w Ht) as (_ & _ & _ & Q & _).
    { rewrite Hq. reflexivity. }
    rewrite Q, Hq. reflexivity.
Qed.

(** Without a pending hold timer, no passive script calls onHold. *)
Lemma quiet_script (script : list Action) (w : World) :
  timers_tracked w = true -> hold_timers w = [] ->
  forallb passive script = true ->
  let w1 := run (perform_all script) w in
  count is_OnHold w1 = count is_OnHold w /\ hold_timers w1 = [] /\
  timers_tracked w1 = true.
Proof.
  revert w. induction script as [|a script IH]; intros w Ht Hq Hp; cbn zeta.
  - auto.
  - cbn [forallb] in Hp. apply andb_true_iff in Hp. destruct Hp as [Ha Hp].
    change (run (perform_all (a :: script)) w)
      with (run (perform_all script) (run (perform a) w)).
    destruct (quiet_perform a w Ht Hq Ha) as (C1 & Q1 & T1).
    destruct (IH _ T1 Q1 Hp) as (C2 & Q2 & T2).
    repeat apply conj; try assumption. congruence.
Qed.

(** ** A pressed widget with its hold timer running *)

Lemma waits_below_threshold (dts : list Z) (en : timer.Entry) (w : World) :
  timers_tracked w = true ->
  hold_timers w = [en] ->
  Forall (fun dt => 0 <= dt) dts ->
  timer.elapsed en + total dts < timer.delay en ->
  let w1 := run (perform_all (map Wait dts)) w in
  this w1 = this w /\ trace w1 = trace w /\
  hold_timers w1 = [timer.tick (total dts) en] /\
  timers_tracked w1 = true.
Proof.
  revert en w. induction dts as [|dt dts IH]; intros en w Ht Hone Hpos Hlt;
    cbn zeta.
  - cbn [map perform_all total fold_right]. unfold run, ret. cbn [snd].
    repeat apply conj; try reflexivity; try assumption.
    rewrite Hone. unfold timer.tick. rewrite Z.add_0_r.
    destruct en; reflexivity.
  - inversion Hpos as [|dt' dts' Hdt Hdts]; subst.
    cbn [total fold_right] in Hlt. fold (total dts) in Hlt.
    assert (Htot : 0 <= total dts).
    { clear -Hdts. induction Hdts; cbn [total fold_right]; [lia|].
      fold (total l). lia. }
    change (run (perform_all (map Wait (dt :: dts))) w)
      with (run (perform_all (map Wait dts)) (run (timer_update dt) w)).
    destruct (timer_update_quiet dt w Ht) as (E1 & E2 & _ & E4 & T1).
    { rewrite Hone. cbn [map filter]. unfold timer.due, timer.tick.
      cbn [timer.delay timer.elapsed].
      destruct (Z.leb_spec (timer.delay en) (timer.elapsed en + dt));
        [lia|reflexivity]. }
    rewrite Hone in E4. cbn [map] in E4.
    destruct (IH _ _ T1 E4 Hdts) as (F1 & F2 & F3 & T2).
    { cbn [timer.tick timer.elapsed timer.delay]. lia. }
    repeat apply conj; try congruence.
    rewrite F3. unfold timer.tick.
    cbn [timer.fn timer.delay timer.repeat timer.elapsed timer.id
         total fold_right].
    fold (total dts). f_equal. f_equal. lia.
Qed.

Lemma waits_past_threshold (dts : list Z) (en : timer.Entry) (w : World) :
  timers_tracked w = true ->
  released (this w) = false ->
  hold_timers w = [en] ->
  dts <> [] ->
  timer.delay en <= timer.elapsed en + total dts ->
  let w1 := run (perform_all (map Wait dts)) w in
  count is_OnHold w1 = S (count is_OnHold w) /\ hold_timers w1 = [] /\
  timers_tracked w1 = true.
Proof.
  revert en w.
  induction dts as [|dt dts IH]; intros en w Ht Hr Hone Hne Hge; cbn zeta;
    [congruence|].
  cbn [total fold_right] in Hge. fold (total dts) in Hge.
  change (run (perform_all (map Wait (dt :: dts))) w)
    with (run (perform_all (map Wait dts)) (run (timer_update dt) w)).
  destruct (timer.due (timer.tick dt en)) eqn:Hdue.
  - destruct (timer_update_fires dt en w Ht Hr Hone Hdue)
      as (C1 & Q1 & T1 & _).
    destruct (quiet_script (map Wait dts) _ T1 Q1) as (C2 & Q2 & T2).
    { clear. induction dts; [reflexivity|assumption]. }
    repeat apply conj; try assumption. congruence.
  - destruct (timer_update_quiet dt w Ht) as (E1 & E2 & _ & E4 & T1).
    { rewrite Hone. cbn [map filter]. rewrite Hdue. reflexivity. }
    rewrite Hone in E4. cbn [map] in E4.
    assert (Hne' : dts <> []).
    { intros ->. cbn [total fold_right] in Hge.
      unfold timer.due, timer.tick in Hdue.
      cbn [timer.delay timer.elapsed] in Hdue.
      apply Z.leb_gt in Hdue. lia. }
    rewrite <- E1 in Hr.
    destruct (IH _ _ T1 Hr E4 Hne') as (C2 & Q2 & T2).
    { cbn [timer.tick timer.elapsed timer.delay]. lia. }
    repeat apply conj; try assumption.
    rewrite C2. unfold count. rewrite E2. reflexivity.
Qed.

(** What an effective press of a holdable widget leaves behind. *)
Lemma clicked_arms (e : Pointer) (w : World) :
  timers_tracked w = true ->
  isHoldable (this w) = true -> isClickable (this w) = true ->
  button e = 0 ->
  let old := holdTimeout (this w) in
  let h := timer.timerId (tmr w) + 1 in
  let w1 := run (clicked e) w in
  holdTimeout (this w1) = h /\ h <> old /\ h <> NO_TIMEOUT /\
  released (this w1) = false /\
  timer.pending old (tmr w1) = false /\
  hold_timers w1
  = [timer.mkEntry HoldOfThis (holdThreshold (this w)) false 0 h] /\
  trace w1 = trace w ++ [TimerClearTimeout old;
                         TimerSetTimeout HoldOfThis (holdThreshold (this w))
                                         false h;
                         OnClick e] /\
  timers_tracked w1 = true.
Proof.
  intros Ht Hh Hc Hb. cbn zeta.
  assert (Hgate : (button e =? 0) && isClickable (this w) = true).
  { rewrite Hb, Hc. reflexivity. }
  pose proof (tracked_clicked e w Ht) as Ht1.
  unfold run in *. rewrite (clicked_armed e w Hgate Hh) in *.
  cbn [snd this tmr trace] in *.
  pose proof Ht as Hspec. apply tracked_spec in Hspec.
  destruct Hspec as (_ & Hn & Hle). unfold NO_TIMEOUT.
  repeat apply conj; try reflexivity; try lia; try exact Ht1.
  - unfold timer.pending. cbn [snd timer.setTimeout timer.timers].
    rewrite existsb_app. fold (timer.pending (holdTimeout (this w))
      (timer.clearTimeout (holdTimeout (this w)) (tmr w))).
    rewrite pending_clearTimeout. cbn [existsb timer.id orb].
    apply orb_false_iff. split; [|reflexivity].
    apply Z.eqb_neq. cbn [timer.clearTimeout timer.timerId]. lia.
  - unfold hold_timers, holds. cbn [tmr snd timer.setTimeout timer.timers].
    rewrite filter_app. fold (holds (timer.timers
      (timer.clearTimeout (holdTimeout (this w)) (tmr w)))).
    cbn [timer.clearTimeout timer.timers].
    rewrite (holds_cleared w Ht). reflexivity.
Qed.

(** ** The claims on the hold timer *)

(** C1: in every state [hold] cancels the timer, resets the handle to
    the none sentinel, marks the widget dirty and calls onHold exactly
    when released is false.  With isHoldable set, a press released
    before the threshold has gone by never calls onHold, whatever follows
    short of a new press; a press held until the threshold has gone by
    calls onHold exactly once in that press cycle. *)
Theorem hold_fires_once (e e' : Pointer) (dts : list Z)
  (rest : list Action) (w : World) :
  (let w1 := run hold w in
   holdTimeout (this w1) = NO_TIMEOUT /\
   dirty (super (this w1)) = true /\
   tmr w1 = timer.clearTimeout (holdTimeout (this w)) (tmr w) /\
   trace w1 = trace w ++ TimerClearTimeout (holdTimeout (this w))
                :: (if released (this w) then [] else [OnHold]) /\
   (released (this w) = false ->
    count is_OnHold w1 = S (count is_OnHold w)) /\
   (released (this w) = true -> count is_OnHold w1 = count is_OnHold w)) /\
  (timers_tracked w = true ->
   isHoldable (this w) = true -> isClickable (this w) = true ->
   button e = 0 -> forallb passive rest = true ->
   (Forall (fun dt => 0 <= dt) dts -> total dts < holdThreshold (this w) ->
    count is_OnHold
      (run (perform_all (Press e :: map Wait dts ++ Release e' :: rest)) w)
    = count is_OnHold w) /\
   (dts <> [] -> holdThreshold (this w) <= total dts ->
    count is_OnHold (run (perform_all (Press e :: map Wait dts ++ rest)) w)
    = S (count is_OnHold w))).
Proof.
  split.
  - cbn zeta. unfold run. rewrite hold_eq. cbn [snd this tmr trace].
    repeat apply conj; try reflexivity.
    + intros Hr. rewrite count_app, Hr. cbn. lia.
    + intros Hr. rewrite count_app, Hr. cbn. lia.
  - intros Ht Hh Hc Hb Hrest.
    destruct (clicked_arms e w Ht Hh Hc Hb)
      as (_ & _ & _ & Hr1 & _ & Hone & Htr & Ht1).
    assert (Hc1 : count is_OnHold (run (clicked e) w) = count is_OnHold w).
    { unfold count. rewrite Htr, filter_app, length_app. cbn. lia. }
    split.
    + intros Hpos Hlt.
      change (run (perform_all (Press e :: map Wait dts ++ Release e' :: rest))
                  w)
        with (run (perform_all (map Wait dts ++ Release e' :: rest))
                  (run (clicked e) w)).
      rewrite perform_all_app.
      destruct (waits_below_threshold dts _ _ Ht1 Hone Hpos)
        as (E1 & E2 & _ & T2).
      { cbn [timer.elapsed timer.delay]. lia. }
      set (w2 := run (perform_all (map Wait dts)) (run (clicked e) w)) in *.
      assert (Hr2 : released (this w2) = false) by (rewrite E1; exact Hr1).
      change (run (perform_all (Release e' :: rest)) w2)
        with (run (perform_all rest) (run (release e') w2)).
      pose proof (tracked_release e' w2 T2) as T3.
      assert (Hq3 : hold_timers (run (release e') w2) = []).
      { unfold run. rewrite (release_effective e' w2 Hr2). cbn [snd].
        unfold hold_timers. cbn [tmr timer.clearTimeout timer.timers].
        apply (holds_cleared w2 T2). }
      assert (C3 : count is_OnHold (run (release e') w2)
                   = count is_OnHold w2).
      { unfold run. rewrite (release_effective e' w2 Hr2). cbn [snd].
        rewrite count_app. cbn. lia. }
      destruct (quiet_script rest _ T3 Hq3 Hrest) as (C4 & _).
      rewrite C4, C3, <- Hc1. unfold count. rewrite E2. reflexivity.
    + intros Hne Hge.
      change (run (perform_all (Press e :: map Wait dts ++ rest)) w)
        with (run (perform_all (map Wait dts ++ rest)) (run (clicked e) w)).
      rewrite perform_all_app.
      destruct (waits_past_threshold dts _ _ Ht1 Hr1 Hone Hne)
        as (C2 & Q2 & T2).
      { cbn [timer.elapsed timer.delay]. lia. }
      destruct (quiet_script rest _ T2 Q2 Hrest) as (C3 & _).
      congruence.
Qed.

(** C4, as amended: deactivation resets the handle to the none sentinel
    and leaves no hold timer of the widget in the timer service, so that
    no passing of time and no later release, hover or activation event
    calls onHold.  Deactivation does not touch released: a call of
    [hold] made by hand afterwards calls onHold exactly when the widget
    was still pressed. *)
Theorem deactivate_cancels_hold_timer (script : list Action) (w : World) :
  timers_tracked w = true ->
  let w1 := run onDeactivateEvent w in
  holdTimeout (this w1) = NO_TIMEOUT /\
  timer.pending (holdTimeout (this w)) (tmr w1) = false /\
  hold_timers w1 = [] /\
  count is_OnHold w1 = count is_OnHold w /\
  (forallb passive script = true ->
   count is_OnHold (run (perform_all script) w1) = count is_OnHold w1) /\
  released (this w1) = released (this w) /\
  (released (this w) = false ->
   count is_OnHold (run hold w1) = S (count is_OnHold w1)) /\
  (released (this w) = true ->
   count is_OnHold (run hold w1) = count is_OnHold w1).
Proof.
  intros Ht. cbn zeta.
  pose proof (tracked_onDeactivateEvent w Ht) as Ht1.
  assert (Hq : hold_timers (run onDeactivateEvent w) = []).
  { unfold run. rewrite onDeactivateEvent_eq. cbn [snd].
    unfold hold_timers. cbn [tmr timer.clearTimeout timer.timers].
    apply (holds_cleared w Ht). }
  repeat apply conj.
  - unfold run. rewrite onDeactivateEvent_eq. reflexivity.
  - unfold run. rewrite onDeactivateEvent_eq. cbn [snd tmr].
    apply pending_clearTimeout.
  - exact Hq.
  - unfold run. rewrite onDeactivateEvent_eq. cbn [snd].
    rewrite count_app. cbn. lia.
  - intros Hp. apply (quiet_script script _ Ht1 Hq Hp).
  - unfold run. rewrite onDeactivateEvent_eq. reflexivity.
  - intros Hr. unfold run at 1. rewrite hold_eq. cbn [snd].
    rewrite count_app.
    change (released (this (run onDeactivateEvent w)))
      with (released (this w)).
    rewrite Hr. cbn. lia.
  - intros Hr. unfold run at 1. rewrite hold_eq. cbn [snd].
    rewrite count_app.
    change (released (this (run onDeactivateEvent w)))
      with (released (this w)).
    rewrite Hr. cbn. lia.
Qed.

Lemma presses_not_holdable (es : list Pointer) (w : World) :
  isHoldable (this w) = false ->
  let w1 := run (perform_all (map Press es)) w in
  tmr w1 = tmr w /\ holdTimeout (this w1) = holdTimeout (this w) /\
  count is_TimerSetTimeout w1 = count is_TimerSetTimeout w /\
  isHoldable (this w1) = false.
Proof.
  revert w. induction es as [|e es IH]; intros w Hh; cbn zeta.
  - repeat apply conj; try reflexivity. exact Hh.
  - change (run (perform_all (map Press (e :: es))) w)
      with (run (perform_all (map Press es)) (run (clicked e) w)).
    assert (Hstep : tmr (run (clicked e) w) = tmr w /\
                    holdTimeout (this (run (clicked e) w))
                    = holdTimeout (this w) /\
                    count is_TimerSetTimeout (run (clicked e) w)
                    = count is_TimerSetTimeout w /\
                    isHoldable (this (run (clicked e) w)) = false).
    { unfold run.
      destruct ((button e =? 0) && isClickable (this w)) eqn:Hgate.
      - rewrite (clicked_plain e w Hgate Hh). cbn [snd this tmr].
        rewrite count_app. cbn. repeat apply conj; try reflexivity; try lia.
        exact Hh.
      - rewrite (clicked_ignored e w Hgate). auto. }
    destruct Hstep as (S1 & S2 & S3 & S4).
    destruct (IH _ S4) as (F1 & F2 & F3 & F4).
    repeat apply conj; congruence.
Qed.

(** C7: with isHoldable false no sequence of presses arms a hold timer:
    setTimeout is never called, the timer service is untouched and the
    handle stays what it was, the none sentinel included.  With
    isHoldable true an effective press cancels the timer the widget
    holds and arms a new one: the old handle is no longer pending and
    exactly one hold timer, the new one, is. *)
Theorem hold_timer_arming (es : list Pointer) (e : Pointer) (w : World) :
  (isHoldable (this w) = false ->
   let w1 := run (perform_all (map Press es)) w in
   count is_TimerSetTimeout w1 = count is_TimerSetTimeout w /\
   tmr w1 = tmr w /\
   holdTimeout (this w1) = holdTimeout (this w) /\
   (holdTimeout (this w) = NO_TIMEOUT -> holdTimeout (this w1) = NO_TIMEOUT))
  /\
  (isHoldable (this w) = true -> isClickable (this w) = true ->
   button e = 0 -> timers_tracked w = true ->
   let old := holdTimeout (this w) in
   let h := timer.timerId (tmr w) + 1 in
   let w1 := run (clicked e) w in
   holdTimeout (this w1) = h /\ h <> old /\
   timer.pending old (tmr w1) = false /\
   timer.pending h (tmr w1) = true /\
   hold_timers w1
   = [timer.mkEntry HoldOfThis (holdThreshold (this w)) false 0 h] /\
   trace w1 = trace w ++ [TimerClearTimeout old;
                          TimerSetTimeout HoldOfThis (holdThreshold (this w))
                                          false h;
                          OnClick e]).
Proof.
  split.
  - intros Hh. cbn zeta.
    destruct (presses_not_holdable es w Hh) as (F1 & F2 & F3 & _).
    repeat apply conj; try assumption. intros Hn. congruence.
  - intros Hh Hc Hb Ht. cbn zeta.
    destruct (clicked_arms e w Ht Hh Hc Hb)
      as (A1 & A2 & A3 & _ & A5 & A6 & A7 & A8).
    repeat apply conj; try assumption.
    rewrite <- A1. apply (pending_hold_timer _ A8).
    rewrite A6. discriminate.
Qed.

(** ** Reachable worlds *)

Lemma released_inv_fire_all (ds : list timer.Entry) (w : World) :
  released_inv (this w) = true ->
  released_inv (this (run (fire_all ds) w)) = true.
Proof.
  revert w. induction ds as [|d ds IH]; intros w Hinv; [exact Hinv|].
  change (run (fire_all (d :: ds)) w)
    with (run (fire_all ds) (run (fire d) w)).
  apply IH. unfold run, fire.
  destruct (timer.pending (timer.id d) (tmr w)); [|exact Hinv].
  destruct (timer.fn d); cbn [run_callback]; [|exact Hinv].
  rewrite hold_eq. unfold released_inv. cbn. apply implb_true_r.
Qed.

Lemma released_inv_perform (a : Action) (w : World) :
  released_inv (this w) = true ->
  released_inv (this (run (perform a) w)) = true.
Proof.
  intros Hinv.
  destruct (released_inv_methods
              match a with
              | Press e | Release e | Enter e | Leave e => e
              | _ => primary_down
              end w Hinv) as (H1 & H2 & H3 & H4 & H5 & H6 & H7).
  destruct a as [e|e|e|e| | | |dt]; try assumption.
  change (run (perform (Wait dt)) w) with (run (timer_update dt) w).
  unfold run, timer_update. apply released_inv_fire_all. exact Hinv.
Qed.

(** Every world reached from a newly constructed widget by a script of
    events satisfies both invariants. *)
Lemma reachable_invariants (script : list Action) (d0 : bool)
  (x y wd ht : Z) :
  let w := run (perform_all script) (fresh_world d0 x y wd ht) in
  released_inv (this w) = true /\ timers_tracked w = true.
Proof.
  cbn zeta. split; [|apply tracked_script, tracked_fresh].
  generalize (fresh_world d0 x y wd ht) (eq_refl :
    released_inv (this (fresh_world d0 x y wd ht)) = true).
  induction script as [|a script IH]; intros w Hinv; [exact Hinv|].
  change (run (perform_all (a :: script)) w)
    with (run (perform_all script) (run (perform a) w)).
  apply IH, released_inv_perform, Hinv.
Qed.

(** ** Released means no pending hold timer *)

Lemma idle_of_tracked (w : World) :
  timers_tracked w = true -> released_inv (this w) = true ->
  idle_when_released w.
Proof.
  intros Ht Hi Hr. unfold released_inv in Hi. rewrite Hr in Hi.
  cbn [implb] in Hi. apply Z.eqb_eq in Hi. split; [exact Hi|].
  apply tracked_spec in Ht. destruct Ht as (Hall & _).
  unfold hold_timers, holds.
  induction Hall as [|en l Hen _ IH]; [reflexivity|].
  apply entry_ok_spec in Hen. destruct Hen as (Hiff & _ & Hpos).
  cbn [filter]. destruct (is_hold (timer.fn en)); [|exact IH].
  exfalso. assert (E : timer.id en = holdTimeout (this w))
    by (apply Hiff; reflexivity).
  unfold NO_TIMEOUT in Hi. lia.
Qed.

Lemma idle_released_inv (w : World) :
  idle_when_released w -> released_inv (this w) = true.
Proof.
  unfold idle_when_released, released_inv. intros Hidle.
  destruct (released (this w)); [|reflexivity].
  destruct (Hidle eq_refl) as (Hn & _). cbn [implb]. apply Z.eqb_eq, Hn.
Qed.

(** C3: released == true implies holdTimeout == none, and no hold timer
    of the widget is pending in the timer service.  This holds for a
    newly constructed widget on an idle timer service.  Each of
    [clicked], [enter], [leave], [release], [hold], [onActivateEvent]
    and [onDeactivateEvent] preserves the implication on the handle in
    every world, and in every world where the widget tracks its timer it
    preserves the whole invariant, the tracking included. *)
Theorem released_implies_no_timer (d0 : bool) (x y wd ht : Z)
  (e : Pointer) (w : World) :
  (released_inv (constructor d0 x y wd ht) = true /\
   idle_when_released (fresh_world d0 x y wd ht) /\
   timers_tracked (fresh_world d0 x y wd ht) = true) /\
  (released_inv (this w) = true ->
     released_inv (this (run (clicked e) w)) = true /\
     released_inv (this (run (enter e) w)) = true /\
     released_inv (this (run (leave e) w)) = true /\
     released_inv (this (run (release e) w)) = true /\
     released_inv (this (run hold w)) = true /\
     released_inv (this (run onActivateEvent w)) = true /\
     released_inv (this (run onDeactivateEvent w)) = true) /\
  (timers_tracked w = true -> idle_when_released w ->
     (timers_tracked (run (clicked e) w) = true /\
      idle_when_released (run (clicked e) w)) /\
     (timers_tracked (run (enter e) w) = true /\
      idle_when_released (run (enter e) w)) /\
     (timers_tracked (run (leave e) w) = true /\
      idle_when_released (run (leave e) w)) /\
     (timers_tracked (run (release e) w) = true /\
      idle_when_released (run (release e) w)) /\
     (timers_tracked (run hold w) = true /\
      idle_when_released (run hold w)) /\
     (timers_tracked (run onActivateEvent w) = true /\
      idle_when_released (run onActivateEvent w)) /\
     (timers_tracked (run onDeactivateEvent w) = true /\
      idle_when_released (run onDeactivateEvent w))).
Proof.
  split; [|split].
  - split; [reflexivity|]. split; [|reflexivity].
    intros _. split; reflexivity.
  - apply released_inv_methods.
  - intros Ht Hidle.
    destruct (released_inv_methods e w (idle_released_inv w Hidle))
      as (I1 & I2 & I3 & I4 & I5 & I6 & I7).
    pose proof (tracked_clicked e w Ht) as T1.
    pose proof (tracked_enter e w Ht) as T2.
    pose proof (tracked_leave e w Ht) as T3.
    pose proof (tracked_release e w Ht) as T4.
    pose proof (tracked_hold w Ht) as T5.
    pose proof (tracked_onActivateEvent w Ht) as T6.
    pose proof (tracked_onDeactivateEvent w Ht) as T7.
    repeat apply conj; try assumption; apply idle_of_tracked; assumption.
Qed.

End Properties.

(** * The claims at work on the sample worlds *)

(** A press held for 250 ms and then released: the hold timer fires once
    and the later release finds nothing to cancel. *)
Example held_press_log :
  trace (run (perform_all (hk := base_hooks)
                [Press primary_down; Wait 100; Wait 150;
                 Release primary_down])
             holdable_world)
  = [TimerClearTimeout (-1); TimerSetTimeout HoldOfThis 250 false 2;
     OnClick primary_down; TimerClearTimeout 2; OnHold;
     TimerClearTimeout (-1); OnRelease primary_down].
Proof. reflexivity. Qed.

(** A press cut short by the pointer leaving the widget: the timer is
    cancelled and onHold is never called. *)
Example short_press_log :
  trace (run (perform_all (hk := base_hooks)
                [Press primary_down; Wait 100; Leave primary_down;
                 Wait 500])
             holdable_world)
  = [TimerClearTimeout (-1); TimerSetTimeout HoldOfThis 250 false 2;
     OnClick primary_down; TimerClearTimeout 2; OnRelease primary_down;
     OnOut primary_down].
Proof. reflexivity. Qed.

Lemma clicked_gate_witness :
  button secondary_down <> 0 /\
  clicked (hk := base_hooks) secondary_down pressed_world
  = (JUndefined, pressed_world).
Proof.
  split.
  - discriminate.
  - apply (clicked_gate (hk := base_hooks) secondary_down pressed_world).
    left. discriminate.
Defined.

Lemma release_idempotent_witness :
  released (this pressed_world) = false /\
  released (this (run (release (hk := base_hooks) primary_down)
                      pressed_world)) = true /\
  count is_OnRelease
    (run (bind (release (hk := base_hooks) primary_down)
               (fun _ => release (hk := base_hooks) primary_down))
         pressed_world)
  = S (count is_OnRelease pressed_world).
Proof.
  destruct (release_idempotent (hk := base_hooks) primary_down primary_down
              pressed_world) as (Hfirst & _ & _ & Htwice).
  split; [reflexivity|]. split.
  - apply Hfirst. reflexivity.
  - apply Htwice. reflexivity.
Defined.

Lemma released_implies_no_timer_witness :
  released_inv (this pressed_world) = true /\
  released_inv (this (run (leave (hk := base_hooks) primary_down)
                          pressed_world)) = true /\
  timers_tracked pressed_world = true /\
  hold_timers pressed_world
  = [timer.mkEntry HoldOfThis 250 false 0 2] /\
  released (this (run (release (hk := base_hooks) primary_down)
                      pressed_world)) = true /\
  hold_timers (run (release (hk := base_hooks) primary_down) pressed_world)
  = [].
Proof.
  destruct (released_implies_no_timer (hk := base_hooks) false 0 0 1 1
              primary_down pressed_world) as (_ & Hkeep & Hidle).
  split; [reflexivity|].
  destruct (Hkeep eq_refl) as (_ & _ & Hleave & _).
  split; [exact Hleave|]. split; [reflexivity|]. split; [reflexivity|].
  split; [reflexivity|].
  destruct Hidle as (_ & _ & _ & (_ & Hrel) & _).
  - reflexivity.
  - intros Hr. discriminate Hr.
  - apply Hrel. reflexivity.
Defined.

Lemma leave_releases_witness :
  released (this pressed_world) = false /\
  released (this (run (leave (hk := base_hooks) primary_down)
                      pressed_world)) = true /\
  timer.pending (holdTimeout (this pressed_world))
    (tmr (run (leave (hk := base_hooks) primary_down) pressed_world))
  = false.
Proof.
  destruct (leave_releases (hk := base_hooks) primary_down pressed_world)
    as (_ & _ & Hrel & _ & _ & Hpressed & _).
  split; [reflexivity|]. split; [exact Hrel|].
  destruct (Hpressed eq_refl) as (_ & _ & Hpend & _). exact Hpend.
Defined.

Lemma hold_fires_once_witness :
  timers_tracked holdable_world = true /\
  count is_OnHold
    (run (perform_all (hk := base_hooks)
            (Press primary_down
               :: map Wait [100] ++ Release primary_down
               :: [Wait 200; Leave primary_down; Wait 500]))
         holdable_world)
  = count is_OnHold holdable_world /\
  count is_OnHold
    (run (perform_all (hk := base_hooks)
            (Press primary_down
               :: map Wait [100; 150] ++ [Wait 300; Release primary_down]))
         holdable_world)
  = S (count is_OnHold holdable_world).
Proof.
  split; [reflexivity|]. split.
  - destruct (proj2 (hold_fires_once (hk := base_hooks) primary_down
                       primary_down [100]
                       [Wait 200; Leave primary_down; Wait 500]
                       holdable_world)
                eq_refl eq_refl eq_refl eq_refl eq_refl) as (Hearly & _).
    apply Hearly.
    + repeat constructor; discriminate.
    + reflexivity.
  - destruct (proj2 (hold_fires_once (hk := base_hooks) primary_down
                       primary_down [100; 150]
                       [Wait 300; Release primary_down] holdable_world)
                eq_refl eq_refl eq_refl eq_refl eq_refl) as (_ & Hheld).
    apply Hheld.
    + discriminate.
    + discriminate.
Defined.

Lemma deactivate_cancels_hold_timer_witness :
  timers_tracked pressed_world = true /\
  hold_timers (run onDeactivateEvent pressed_world) = [] /\
  count is_OnHold
    (run (perform_all (hk := base_hooks) [Wait 1000; Release primary_down])
         (run onDeactivateEvent pressed_world))
  = count is_OnHold (run onDeactivateEvent pressed_world).
Proof.
  destruct (deactivate_cancels_hold_timer (hk := base_hooks)
              [Wait 1000; Release primary_down] pressed_world eq_refl)
    as (_ & _ & Hnone & _ & Hquiet & _).
  split; [reflexivity|]. split; [exact Hnone|].
  apply Hquiet. reflexivity.
Defined.

Lemma hold_timer_arming_witness :
  isHoldable (this (fresh_world false 0 0 8 8)) = false /\
  count is_TimerSetTimeout
    (run (perform_all (hk := base_hooks)
            (map Press [primary_down; secondary_down; primary_down]))
         (fresh_world false 0 0 8 8))
  = count is_TimerSetTimeout (fresh_world false 0 0 8 8) /\
  timers_tracked pressed_world = true /\
  timer.pending (holdTimeout (this pressed_world)) (tmr pressed_world)
  = true /\
  hold_timers (run (clicked (hk := base_hooks) primary_down) pressed_world)
  = [timer.mkEntry HoldOfThis 250 false 0 3].
Proof.
  split; [reflexivity|]. split.
  - destruct (hold_timer_arming (hk := base_hooks)
                [primary_down; secondary_down; primary_down] primary_down
                (fresh_world false 0 0 8 8)) as (Hnever & _).
    destruct (Hnever eq_refl) as (Hcount & _). exact Hcount.
  - split; [reflexivity|]. split; [reflexivity|].
    destruct (hold_timer_arming (hk := base_hooks) [] primary_down
                pressed_world) as (_ & Hagain).
    destruct (Hagain eq_refl eq_refl eq_refl eq_refl)
      as (_ & _ & _ & _ & Hone & _).
    exact Hone.
Defined.

(** C4, as stated, fails: the widget is pressed with its hold timer
    pending and then deactivated; the handle is reset, but [hold] called
    afterwards finds released still false and calls onHold. *)
Lemma hold_after_deactivate_counterexample :
  timers_tracked pressed_world = true /\
  released_inv (this pressed_world) = true /\
  timer.pending (holdTimeout (this pressed_world)) (tmr pressed_world)
  = true /\
  holdTimeout (this (run onDeactivateEvent pressed_world)) = NO_TIMEOUT /\
  count is_OnHold (run onDeactivateEvent pressed_world) = 0%nat /\
  count is_OnHold (run hold (run onDeactivateEvent pressed_world)) = 1%nat /\
  count is_OnHold (run hold (run onDeactivateEvent pressed_world))
  <> count is_OnHold (run onDeactivateEvent pressed_world).
Proof.
  repeat apply conj; try reflexivity. discriminate.
Qed.

(** * Further properties of the class *)

Section Scripts.

Context {hk : Hooks}.

(** ** What time going by can do *)

Lemma hold_only_refl (w : World) : hold_only w w.
Proof.
  repeat split; [left; reflexivity|].
  exists []. rewrite app_nil_r. split; reflexivity.
Qed.

Lemma hold_only_trans (w1 w2 w3 : World) :
  hold_only w1 w2 -> hold_only w2 w3 -> hold_only w1 w3.
Proof.
  intros (R1 & U1 & tr1 & T1 & F1) (R2 & U2 & tr2 & T2 & F2).
  repeat split.
  - congruence.
  - destruct U2 as [U2|U2], U1 as [U1|U1]; rewrite U2, U1; auto.
  - exists (tr1 ++ tr2). rewrite T2, T1, <- app_assoc, forallb_app, F1, F2.
    split; reflexivity.
Qed.

Lemma hold_only_hold (w : World) : hold_only w (run hold w).
Proof.
  unfold run. rewrite hold_eq. cbn [snd].
  repeat split; [right; reflexivity|].
  eexists. split; [reflexivity|].
  destruct (released (this w)); reflexivity.
Qed.

Lemma hold_only_fire_all (ds : list timer.Entry) (w : World) :
  hold_only w (run (fire_all ds) w).
Proof.
  revert w. induction ds as [|d ds IH]; intros w; [apply hold_only_refl|].
  change (run (fire_all (d :: ds)) w)
    with (run (fire_all ds) (run (fire d) w)).
  apply (hold_only_trans _ (run (fire d) w)); [|apply IH].
  unfold run at 1. unfold fire.
  destruct (timer.pending (timer.id d) (tmr w)); [|apply hold_only_refl].
  destruct (timer.fn d); cbn [run_callback].
  - apply (hold_only_hold (mkWorld (this w) (timer.take d (tmr w))
                                   (registry w) (trace w))).
  - repeat split; [left; reflexivity|].
    exists []. cbn [ret snd trace]. rewrite app_nil_r. split; reflexivity.
Qed.

Lemma hold_only_timer_update (dt : Z) (w : World) :
  hold_only w (run (timer_update dt) w).
Proof.
  unfold run, timer_update.
  apply (hold_only_fire_all _
           (mkWorld (this w)
              (timer.mkTimer (map (timer.tick dt) (timer.timers (tmr w)))
                             (timer.timerId (tmr w)))
              (registry w) (trace w))).
Qed.

Lemma hold_only_count (p : Call -> bool) (w w1 : World) :
  (forall c, from_hold c = true -> p c = false) ->
  hold_only w w1 -> count p w1 = count p w.
Proof.
  intros Hp (_ & _ & tr & T & F). unfold count.
  rewrite T, filter_app, length_app.
  assert (Hnone : filter p tr = []).
  { clear T. induction tr as [|c tr IH]; [reflexivity|].
    cbn [forallb] in F. apply andb_true_iff in F. destruct F as [Fc F].
    cbn [filter]. rewrite (Hp c Fc). apply IH, F. }
  rewrite Hnone. cbn. lia.
Qed.

Lemma hold_only_fields (w w1 : World) :
  hold_only w w1 ->
  hover (this w1) = hover (this w) /\
  released (this w1) = released (this w) /\
  config (this w1) = config (this w) /\
  (dirty (super (this w)) = true -> dirty (super (this w1)) = true).
Proof.
  intros (_ & [U|U] & _); rewrite U; repeat split; auto.
Qed.

(** ** What one action does to the fields *)

Lemma perform_fields (a : Action) (w : World) :
  let w1 := run (perform a) w in
  hover (this w1) = hover_after [a] (hover (this w)) /\
  config (this w1) = config (this w) /\
  (dirty (super (this w)) = true -> dirty (super (this w1)) = true).
Proof.
  cbn zeta. destruct a as [e|e|e|e| | | |dt].
  - change (run (perform (Press e)) w) with (run (clicked e) w). unfold run.
    destruct ((button e =? 0) && isClickable (this w)) eqn:Hgate.
    + destruct (isHoldable (this w)) eqn:Hh.
      * rewrite (clicked_armed e w Hgate Hh). repeat split.
      * rewrite (clicked_plain e w Hgate Hh). repeat split.
    + rewrite (clicked_ignored e w Hgate). repeat split. auto.
  - change (run (perform (Release e)) w) with (run (release e) w). unfold run.
    destruct (released (this w)) eqn:Hr.
    + rewrite (release_ignored e w Hr). repeat split. auto.
    + rewrite (release_effective e w Hr). repeat split.
  - repeat split.
  - change (run (perform (Leave e)) w) with (run (leave e) w). unfold run.
    rewrite leave_eq. unfold run.
    destruct (released (this w)) eqn:Hr.
    + rewrite release_ignored by exact Hr. repeat split.
    + rewrite release_effective by exact Hr. repeat split.
  - change (run (perform HoldFires) w) with (run hold w). unfold run.
    rewrite hold_eq. repeat split.
  - change (run (perform Activate) w) with (run onActivateEvent w).
    unfold run. rewrite onActivateEvent_eq. repeat split. auto.
  - change (run (perform Deactivate) w) with (run onDeactivateEvent w).
    unfold run. rewrite onDeactivateEvent_eq. repeat split. auto.
  - change (run (perform (Wait dt)) w) with (run (timer_update dt) w).
    destruct (hold_only_fields _ _ (hold_only_timer_update dt w))
      as (H1 & _ & H3 & H4).
    repeat split; assumption.
Qed.

Lemma perform_all_cons (a : Action) (script : list Action) (w : World) :
  run (perform_all (a :: script)) w
  = run (perform_all script) (run (perform a) w).
Proof. reflexivity. Qed.

Lemma hover_after_cons (a : Action) (script : list Action) (h : bool) :
  hover_after (a :: script) h = hover_after script (hover_after [a] h).
Proof. destruct a; reflexivity. Qed.

(** X1: the hover flag after any script of events, timer updates
    included, is what its last enter or leave event says, and the flag it
    started from when there is none. *)
Theorem hover_follows_pointer (script : list Action) (w : World) :
  hover (this (run (perform_all script) w))
  = hover_after script (hover (this w)).
Proof.
  revert w. induction script as [|a script IH]; intros w; [reflexivity|].
  rewrite perform_all_cons, IH, hover_after_cons.
  destruct (perform_fields a w) as (H1 & _). rewrite H1. reflexivity.
Qed.

(** X2: no script of events writes isClickable, holdThreshold,
    isHoldable, floating, isKinematic or the geometry of the widget, and
    none clears the dirty flag once it is set. *)
Theorem configuration_untouched (script : list Action) (w : World) :
  let w1 := run (perform_all script) w in
  isClickable (this w1) = isClickable (this w) /\
  holdThreshold (this w1) = holdThreshold (this w) /\
  isHoldable (this w1) = isHoldable (this w) /\
  floating (this w1) = floating (this w) /\
  isKinematic (this w1) = isKinematic (this w) /\
  pos_x (super (this w1)) = pos_x (super (this w)) /\
  pos_y (super (this w1)) = pos_y (super (this w)) /\
  width (super (this w1)) = width (super (this w)) /\
  height (super (this w1)) = height (super (this w)) /\
  (dirty (super (this w)) = true -> dirty (super (this w1)) = true).
Proof.
  cbn zeta.
  assert (H : config (this (run (perform_all script) w)) = config (this w) /\
              (dirty (super (this w)) = true ->
               dirty (super (this (run (perform_all script) w))) = true)).
  { revert w. induction script as [|a script IH]; intros w; [auto|].
    rewrite perform_all_cons.
    destruct (perform_fields a w) as (_ & H2 & H3).
    destruct (IH (run (perform a) w)) as (I2 & I3).
    split; [congruence|auto]. }
  destruct H as (Hc & Hd). unfold config in Hc.
  injection Hc as C1 C2 C3 C4 C5 C6 C7 C8 C9.
  repeat apply conj; assumption.
Qed.

(** ** The handlers one by one *)

(** X3: a press with button 0 on a clickable widget marks it dirty and
    pressed, leaves hover, the configuration and the registry alone,
    calls onClick once, as the last thing it does, and returns what the
    hook returns for the widget as the press has left it; unless the
    widget is holdable the timer service and the handle are not touched
    either. *)
Theorem clicked_effective (e : Pointer) (w : World) :
  button e = 0 -> isClickable (this w) = true ->
  let w1 := run (clicked e) w in
  released (this w1) = false /\
  dirty (super (this w1)) = true /\
  hover (this w1) = hover (this w) /\
  config (this w1) = config (this w) /\
  registry w1 = registry w /\
  count is_OnClick w1 = S (count is_OnClick w) /\
  (exists tr, trace w1 = trace w ++ tr ++ [OnClick e] /\
              filter is_OnClick tr = []) /\
  result (clicked e) w = onClick (this w1) e /\
  (isHoldable (this w) = false ->
   tmr w1 = tmr w /\ holdTimeout (this w1) = holdTimeout (this w) /\
   trace w1 = trace w ++ [OnClick e]).
Proof.
  intros Hb Hc. cbn zeta.
  assert (Hgate : (button e =? 0) && isClickable (this w) = true).
  { rewrite Hb, Hc. reflexivity. }
  unfold run, result. destruct (isHoldable (this w)) eqn:Hh.
  - rewrite (clicked_armed e w Hgate Hh). cbn [fst snd this registry trace].
    repeat apply conj; try reflexivity.
    + rewrite count_app. cbn. lia.
    + eexists [_; _]. split; reflexivity.
    + discriminate.
  - rewrite (clicked_plain e w Hgate Hh). cbn [fst snd this registry trace].
    repeat apply conj; try reflexivity.
    + rewrite count_app. cbn. lia.
    + exists []. split; reflexivity.
    + intros _. repeat apply conj; reflexivity.
Qed.

(** X5: whatever the state, the widget is released after [release];
    a press followed by a release, from a state that keeps the
    invariant of the handle, leaves the widget released with the none
    sentinel as handle and, the timer being tracked, without a pending
    hold timer. *)
Theorem press_then_release (e e' : Pointer) (w : World) :
  released (this (run (release e') w)) = true /\
  (released_inv (this w) = true ->
   let w2 := run (release e') (run (clicked e) w) in
   released (this w2) = true /\
   holdTimeout (this w2) = NO_TIMEOUT /\
   (timers_tracked w = true -> hold_timers w2 = [])).
Proof.
  assert (Hrel : forall v, released (this (run (release e') v)) = true).
  { intros v. unfold run. destruct (released (this v)) eqn:Hr.
    - rewrite (release_ignored e' v Hr). exact Hr.
    - rewrite (release_effective e' v Hr). reflexivity. }
  split; [apply Hrel|]. intros Hinv. cbn zeta.
  split; [apply Hrel|].
  destruct (released_inv_methods e w Hinv) as (Hinv1 & _).
  destruct (released_inv_methods e' _ Hinv1) as (_ & _ & _ & Hinv2 & _).
  split.
  - unfold released_inv in Hinv2. rewrite Hrel in Hinv2.
    apply Z.eqb_eq, Hinv2.
  - intros Ht. pose proof (tracked_clicked e w Ht) as Ht1.
    set (w1 := run (clicked e) w) in *.
    pose proof (tracked_holds_handle _ (tracked_release e' w1 Ht1)) as Hall.
    assert (Hnone : holdTimeout (this (run (release e') w1)) = -1).
    { unfold released_inv in Hinv2. rewrite Hrel in Hinv2.
      apply Z.eqb_eq, Hinv2. }
    pose proof (tracked_release e' w1 Ht1) as Ht2.
    apply tracked_spec in Ht2. destruct Ht2 as (Hok & _).
    unfold hold_timers, holds.
    induction Hok as [|en l Hen _ IH]; [reflexivity|].
    cbn [filter]. inversion Hall as [|en' l' Hid Hrest]; subst.
    apply entry_ok_spec in Hen. destruct Hen as (_ & _ & Hpos).
    destruct (is_hold (timer.fn en)); [|apply IH, Hrest].
    specialize (Hid eq_refl). lia.
Qed.

End Scripts.

(** X4: with the hooks as the class defines them, [clicked] returns
    false when the press takes effect and undefined when it is ignored,
    [release] returns false on a pressed widget and undefined on a
    released one, and [enter] and [leave] return undefined. *)
Theorem base_hooks_results (e : Pointer) (w : World) :
  result (clicked (hk := base_hooks) e) w
  = (if (button e =? 0) && isClickable (this w)
     then JBool false else JUndefined) /\
  result (release (hk := base_hooks) e) w
  = (if released (this w) then JUndefined else JBool false) /\
  result (enter (hk := base_hooks) e) w = JUndefined /\
  result (leave (hk := base_hooks) e) w = JUndefined.
Proof.
  repeat apply conj.
  - unfold result.
    destruct ((button e =? 0) && isClickable (this w)) eqn:Hgate.
    + destruct (isHoldable (this w)) eqn:Hh.
      * rewrite (clicked_armed e w Hgate Hh). reflexivity.
      * rewrite (clicked_plain e w Hgate Hh). reflexivity.
    + rewrite (clicked_ignored e w Hgate). reflexivity.
  - unfold result. destruct (released (this w)) eqn:Hr.
    + rewrite (release_ignored e w Hr). reflexivity.
    + rewrite (release_effective e w Hr). reflexivity.
  - reflexivity.
  - reflexivity.
Qed.

Section Invariants.

Context {hk : Hooks}.

(** ** The widget and the timer service agree *)

Lemma settled_spec (w : World) :
  settled w = true <->
  timers_tracked w = true /\ released_inv (this w) = true /\
  ((hold_timers w = [] /\ holdTimeout (this w) = NO_TIMEOUT) \/
   (exists en, hold_timers w = [en] /\ holdTimeout (this w) <> NO_TIMEOUT)).
Proof.
  unfold settled. rewrite !andb_true_iff.
  destruct (hold_timers w) as [|en [|en2 l]].
  - rewrite Z.eqb_eq. split.
    + intros ((Ht & Hi) & Hn). auto.
    + intros (Ht & Hi & [(_ & Hn) | (en & Hen & _)]); [auto|discriminate].
  - rewrite negb_true_iff, Z.eqb_neq. split.
    + intros ((Ht & Hi) & Hn). repeat split; try assumption.
      right. exists en. auto.
    + intros (Ht & Hi & [(Hen & _) | (en' & _ & Hn)]); [discriminate|auto].
  - split.
    + intros (_ & Hf). discriminate.
    + intros (_ & _ & [(Hen & _) | (en' & Hen & _)]); discriminate.
Qed.

Lemma pressed_when_armed (u : UIBaseElement) :
  released_inv u = true -> holdTimeout u <> NO_TIMEOUT -> released u = false.
Proof.
  unfold released_inv. intros Hi Hn.
  destruct (released u); [|reflexivity].
  cbn [implb] in Hi. apply Z.eqb_eq in Hi. contradiction.
Qed.

(** Only a press arms a timer or calls onClick, and only a press can turn
    a released widget into a pressed one. *)
Lemma only_press_arms (a : Action) (w : World) :
  (forall e, a <> Press e) ->
  let w1 := run (perform a) w in
  count is_TimerSetTimeout w1 = count is_TimerSetTimeout w /\
  count is_OnClick w1 = count is_OnClick w /\
  (released (this w) = true -> released (this w1) = true).
Proof.
  intros Hnot. cbn zeta. destruct a as [e|e|e|e| | | |dt].
  - exfalso. apply (Hnot e). reflexivity.
  - change (run (perform (Release e)) w) with (run (release e) w). unfold run.
    destruct (released (this w)) eqn:Hr.
    + rewrite (release_ignored e w Hr). auto.
    + rewrite (release_effective e w Hr). cbn [snd].
      rewrite !count_app. cbn. repeat split; try lia; auto.
  - change (run (perform (Enter e)) w) with (run (enter e) w). unfold run.
    rewrite enter_eq. cbn [snd]. rewrite !count_app. cbn.
    repeat split; try lia. auto.
  - change (run (perform (Leave e)) w) with (run (leave e) w). unfold run.
    rewrite leave_eq. unfold run, call_hook, log, read, bind, ret.
    cbn [fst snd].
    destruct (released (this w)) eqn:Hr.
    + rewrite release_ignored by exact Hr. cbn [snd this].
      rewrite !(count_app _ w). cbn. repeat split; try lia; auto.
    + rewrite release_effective by exact Hr. cbn [snd this trace].
      rewrite <- app_assoc, !(count_app _ w). cbn. repeat split; try lia; auto.
  - change (run (perform HoldFires) w) with (run hold w). unfold run.
    rewrite hold_eq. cbn [snd]. rewrite !count_app.
    repeat apply conj.
    + destruct (released (this w)); cbn; lia.
    + destruct (released (this w)); cbn; lia.
    + intros Hr. exact Hr.
  - change (run (perform Activate) w) with (run onActivateEvent w).
    unfold run. rewrite onActivateEvent_eq. cbn [snd].
    rewrite !count_app. cbn. repeat split; try lia. auto.
  - change (run (perform Deactivate) w) with (run onDeactivateEvent w).
    unfold run. rewrite onDeactivateEvent_eq. cbn [snd].
    rewrite !count_app. cbn. repeat split; try lia. auto.
  - change (run (perform (Wait dt)) w) with (run (timer_update dt) w).
    pose proof (hold_only_timer_update dt w) as Hh.
    destruct (hold_only_fields _ _ Hh) as (_ & Hr & _).
    repeat split.
    + apply hold_only_count; [|exact Hh]. intros [] Hc; try discriminate;
        reflexivity.
    + apply hold_only_count; [|exact Hh]. intros [] Hc; try discriminate;
        reflexivity.
    + congruence.
Qed.

(** One action of a settled world: the world stays settled, and unless
    [hold] is called by hand every call of onHold uses up a pending hold
    timer, which only a call of onClick can have armed. *)
Lemma settled_step (a : Action) (w : World) :
  settled w = true ->
  let w1 := run (perform a) w in
  settled w1 = true /\
  (by_event a = true ->
   (count is_OnHold w1 + List.length (hold_timers w1) + count is_OnClick w
    <= count is_OnHold w + List.length (hold_timers w) + count is_OnClick w1)
   %nat).
Proof.
  intros Hs. cbn zeta. apply settled_spec in Hs.
  destruct Hs as (Ht & Hi & Hcase).
  pose proof (tracked_perform a w Ht) as Ht1.
  assert (Hi1 : released_inv (this (run (perform a) w)) = true).
  { destruct (released_inv_methods
                match a with
                | Press e | Release e | Enter e | Leave e => e
                | _ => primary_down
                end w Hi) as (H1 & H2 & H3 & H4 & H5 & H6 & H7).
    destruct a as [e|e|e|e| | | |dt]; try assumption.
    change (run (perform (Wait dt)) w) with (run (timer_update dt) w).
    unfold run, timer_update. apply released_inv_fire_all. exact Hi. }
  rewrite settled_spec.
  destruct a as [e|e|e|e| | | |dt]; cbn [by_event].
  - (* clicked *)
    change (run (perform (Press e)) w) with (run (clicked e) w) in *.
    destruct ((button e =? 0) && isClickable (this w)) eqn:Hgate.
    + destruct (isHoldable (this w)) eqn:Hh.
      * apply andb_true_iff in Hgate. destruct Hgate as [Hb Hc].
        apply Z.eqb_eq in Hb.
        destruct (clicked_arms e w Ht Hh Hc Hb)
          as (A1 & _ & A3 & _ & _ & A6 & A7 & _).
        split.
        -- repeat split; try assumption. right. eexists. split; [exact A6|].
           rewrite A1. exact A3.
        -- intros _. rewrite A6. unfold count. rewrite A7.
           rewrite !filter_app, !length_app. cbn. lia.
      * unfold run in *. rewrite (clicked_plain e w Hgate Hh) in *.
        cbn [snd] in *. split.
        -- repeat split; assumption.
        -- intros _. rewrite !count_app. cbn.
           change (hold_timers (mkWorld _ (tmr w) _ _)) with (hold_timers w).
           lia.
    + unfold run in *. rewrite (clicked_ignored e w Hgate) in *. cbn [snd].
      split; [repeat split; assumption|]. intros _. lia.
  - (* release *)
    change (run (perform (Release e)) w) with (run (release e) w) in *.
    unfold run in *. destruct (released (this w)) eqn:Hr.
    + rewrite (release_ignored e w Hr) in *. cbn [snd].
      split; [repeat split; assumption|]. intros _. lia.
    + rewrite (release_effective e w Hr) in *. cbn [snd] in *.
      assert (Hq : hold_timers
                     (mkWorld (with_holdTimeout (-1)
                                 (with_dirty true
                                    (with_released true (this w))))
                        (timer.clearTimeout (holdTimeout (this w)) (tmr w))
                        (registry w)
                        (trace w ++ [TimerClearTimeout (holdTimeout (this w));
                                     OnRelease e])) = []).
      { apply (holds_cleared w Ht). }
      split.
      * repeat split; try assumption. left. split; [exact Hq|reflexivity].
      * intros _. rewrite Hq, !count_app. cbn. lia.
  - (* enter *)
    change (run (perform (Enter e)) w) with (run (enter e) w) in *.
    unfold run in *. rewrite enter_eq in *. cbn [snd] in *.
    split; [repeat split; assumption|].
    intros _. rewrite !count_app. cbn.
    change (hold_timers (mkWorld _ (tmr w) _ _)) with (hold_timers w). lia.
  - (* leave *)
    change (run (perform (Leave e)) w) with (run (leave e) w) in *.
    unfold run in *. rewrite leave_eq in *.
    unfold run, call_hook, log, read, bind, ret in *. cbn [fst snd] in *.
    destruct (released (this w)) eqn:Hr.
    + rewrite release_ignored in * by exact Hr. cbn [snd this tmr registry
                                                     trace] in *.
      split; [repeat split; assumption|].
      intros _. rewrite !(count_app _ w). cbn.
      change (hold_timers (mkWorld _ (tmr w) _ _)) with (hold_timers w). lia.
    + rewrite release_effective in * by exact Hr.
      cbn [snd this tmr registry trace] in *.
      assert (Hq : forall u rs tr,
                hold_timers (mkWorld u
                  (timer.clearTimeout (holdTimeout (this w)) (tmr w)) rs tr)
                = []).
      { intros. apply (holds_cleared w Ht). }
      split.
      * repeat split; try assumption. left. split; [apply Hq|reflexivity].
      * intros _. rewrite Hq, <- app_assoc, !(count_app _ w). cbn. lia.
  - (* hold called by hand *)
    change (run (perform HoldFires) w) with (run hold w) in *.
    unfold run in *. rewrite hold_eq in *. cbn [snd] in *.
    split; [|discriminate].
    repeat split; try assumption. left.
    split; [apply (holds_cleared w Ht)|reflexivity].
  - (* onActivateEvent *)
    change (run (perform Activate) w) with (run onActivateEvent w) in *.
    unfold run in *. rewrite onActivateEvent_eq in *. cbn [snd] in *.
    split; [repeat split; assumption|].
    intros _. rewrite !count_app. cbn.
    change (hold_timers (mkWorld _ (tmr w) _ _)) with (hold_timers w). lia.
  - (* onDeactivateEvent *)
    change (run (perform Deactivate) w) with (run onDeactivateEvent w) in *.
    unfold run in *. rewrite onDeactivateEvent_eq in *. cbn [snd] in *.
    assert (Hq : forall u rs tr,
              hold_timers (mkWorld u
                (timer.clearTimeout (holdTimeout (this w)) (tmr w)) rs tr)
              = []).
    { intros. apply (holds_cleared w Ht). }
    split.
    + repeat split; try assumption. left. split; [apply Hq|reflexivity].
    + intros _. rewrite Hq, !count_app. cbn. lia.
  - (* time goes by *)
    change (run (perform (Wait dt)) w) with (run (timer_update dt) w) in *.
    assert (Hclicks : count is_OnClick (run (timer_update dt) w)
                      = count is_OnClick w).
    { apply hold_only_count; [|apply hold_only_timer_update].
      intros [] Hc; try discriminate; reflexivity. }
    destruct Hcase as [(Hq & Hn) | (en & Hen & Hn)].
    + destruct (timer_update_quiet dt w Ht) as (E1 & E2 & _ & E4 & _).
      { rewrite Hq. reflexivity. }
      rewrite Hq in E4. cbn [map] in E4. split.
      * repeat split; try assumption. left. split; [exact E4|congruence].
      * intros _. rewrite E4, Hq, Hclicks. unfold count. rewrite E2. lia.
    + destruct (timer.due (timer.tick dt en)) eqn:Hdue.
      * destruct (timer_update_fires dt en w Ht
                    (pressed_when_armed _ Hi Hn) Hen Hdue)
          as (C1 & Q1 & _ & _ & N1).
        split.
        -- repeat split; try assumption. left. split; assumption.
        -- intros _. rewrite C1, Q1, Hen, Hclicks. cbn. lia.
      * destruct (timer_update_quiet dt w Ht) as (E1 & E2 & _ & E4 & _).
        { rewrite Hen. cbn [map filter]. rewrite Hdue. reflexivity. }
        rewrite Hen in E4. cbn [map] in E4. split.
        -- repeat split; try assumption. right. eexists.
           split; [exact E4|congruence].
        -- intros _. rewrite E4, Hen, Hclicks. unfold count. rewrite E2.
           cbn. lia.
Qed.

Lemma settled_script (script : list Action) (w : World) :
  settled w = true -> settled (run (perform_all script) w) = true.
Proof.
  revert w. induction script as [|a script IH]; intros w Hs; [exact Hs|].
  rewrite perform_all_cons. apply IH, (settled_step a w Hs).
Qed.

(** X6: from a world where widget and timer service agree, every script
    of events, calls of [hold] by hand included, leads to a world where
    they agree again: at most one hold timer of the widget is pending,
    its handle is the one the widget keeps, the handle is the none
    sentinel exactly when no hold timer is pending, and a released
    widget has none pending. *)
Theorem one_hold_timer (script : list Action) (w : World) :
  settled w = true ->
  let w1 := run (perform_all script) w in
  settled w1 = true /\
  (List.length (hold_timers w1) <= 1)%nat /\
  (forall en, In en (hold_timers w1) -> timer.id en = holdTimeout (this w1)) /\
  (holdTimeout (this w1) = NO_TIMEOUT <-> hold_timers w1 = []) /\
  (released (this w1) = true -> hold_timers w1 = []).
Proof.
  intros Hs. cbn zeta. pose proof (settled_script script w Hs) as Hs1.
  split; [exact Hs1|]. apply settled_spec in Hs1.
  destruct Hs1 as (Ht & Hi & Hcase).
  assert (Hids : forall en, In en (hold_timers (run (perform_all script) w)) ->
                 timer.id en = holdTimeout (this (run (perform_all script) w))).
  { intros en Hin. unfold hold_timers, holds in Hin.
    apply filter_In in Hin. destruct Hin as [Hin Hf].
    pose proof (tracked_holds_handle _ Ht) as Hall.
    rewrite Forall_forall in Hall. apply (Hall en Hin Hf). }
  destruct Hcase as [(Hq & Hn) | (en & Hen & Hn)].
  - rewrite Hq in *. repeat split; auto.
  - rewrite Hen in *. repeat split; auto.
    + intros Hn'. contradiction.
    + discriminate.
    + intros Hr. rewrite (pressed_when_armed _ Hi Hn) in Hr. discriminate.
Qed.

(** X7: as long as [hold] is not called by hand, onHold is called at
    most once for each call of onClick: from a settled world without a
    pending hold timer, no script of events calls onHold more often than
    onClick. *)
Theorem hold_at_most_once_per_click (script : list Action) (w : World) :
  settled w = true -> hold_timers w = [] ->
  forallb by_event script = true ->
  let w1 := run (perform_all script) w in
  (count is_OnHold w1 - count is_OnHold w
   <= count is_OnClick w1 - count is_OnClick w)%nat.
Proof.
  intros Hs Hq Hev. cbn zeta.
  assert (H : (count is_OnHold (run (perform_all script) w)
               + List.length (hold_timers (run (perform_all script) w))
               + count is_OnClick w
               <= count is_OnHold w + List.length (hold_timers w)
                  + count is_OnClick (run (perform_all script) w))%nat).
  { clear Hq. revert w Hs.
    induction script as [|a script IH]; intros w Hs; [cbn; lia|].
    cbn [forallb] in Hev. apply andb_true_iff in Hev.
    destruct Hev as [Ha Hev]. rewrite perform_all_cons.
    destruct (settled_step a w Hs) as (Hs1 & Hstep).
    specialize (Hstep Ha). specialize (IH Hev _ Hs1). lia. }
  rewrite Hq in H. cbn [List.length] in H. lia.
Qed.


(** X13: a widget that is not clickable is never pressed: whatever the
    script, onClick is never called and no timer is armed, and a widget
    that was released stays released. *)
Theorem not_clickable_never_pressed (script : list Action) (w : World) :
  isClickable (this w) = false ->
  let w1 := run (perform_all script) w in
  count is_OnClick w1 = count is_OnClick w /\
  count is_TimerSetTimeout w1 = count is_TimerSetTimeout w /\
  (released (this w) = true -> released (this w1) = true).
Proof.
  revert w. induction script as [|a script IH]; intros w Hc; cbn zeta;
    [auto|].
  rewrite perform_all_cons.
  assert (Hstep : isClickable (this (run (perform a) w)) = false /\
                  count is_OnClick (run (perform a) w) = count is_OnClick w /\
                  count is_TimerSetTimeout (run (perform a) w)
                  = count is_TimerSetTimeout w /\
                  (released (this w) = true ->
                   released (this (run (perform a) w)) = true)).
  { split.
    - destruct (perform_fields a w) as (_ & Hcfg & _).
      unfold config in Hcfg. injection Hcfg as Hcfg _ _ _ _ _ _ _ _.
      congruence.
    - destruct a as [e|e|e|e| | | |dt].
      2-8: match goal with
           | |- context [perform ?a] =>
               destruct (only_press_arms a w) as (S1 & C1 & R1);
               [intros e0 E; discriminate E|auto]
           end.
      change (run (perform (Press e)) w) with (run (clicked e) w).
      unfold run. rewrite (clicked_ignored e w).
      + auto.
      + rewrite Hc. apply andb_false_r. }
  destruct Hstep as (Hc1 & C1 & S1 & R1).
  destruct (IH _ Hc1) as (C2 & S2 & R2).
  repeat split; try congruence. auto.
Qed.

(** ** The timers of the other clients *)

Lemma others_clear (w : World) :
  timers_tracked w = true ->
  others (filter (timer.keeps (holdTimeout (this w))) (timer.timers (tmr w)))
  = others (timer.timers (tmr w)).
Proof.
  intros Ht. apply tracked_spec in Ht. destruct Ht as (Hall & _).
  unfold others. induction Hall as [|en l Hen _ IH]; [reflexivity|].
  apply entry_ok_spec in Hen. destruct Hen as (Hiff & _).
  cbn [filter]. unfold timer.keeps at 1.
  destruct (Z.eqb_spec (timer.id en) (holdTimeout (this w))) as [E|E];
    cbn [negb filter].
  - apply Hiff in E. rewrite E. cbn [negb]. exact IH.
  - destruct (is_hold (timer.fn en)); cbn [negb]; rewrite IH; reflexivity.
Qed.

Lemma others_instant (a : Action) (w : World) :
  timers_tracked w = true -> instant a = true ->
  others (timer.timers (tmr (run (perform a) w)))
  = others (timer.timers (tmr w)).
Proof.
  intros Ht Hi. destruct a as [e|e|e|e| | | |dt]; try discriminate Hi.
  - change (run (perform (Press e)) w) with (run (clicked e) w). unfold run.
    destruct ((button e =? 0) && isClickable (this w)) eqn:Hgate.
    + destruct (isHoldable (this w)) eqn:Hh.
      * rewrite (clicked_armed e w Hgate Hh).
        cbn [snd tmr timer.setTimeout timer.clearTimeout timer.timers].
        unfold others. rewrite filter_app. cbn [filter timer.fn is_hold negb].
        rewrite app_nil_r. apply (others_clear w Ht).
      * rewrite (clicked_plain e w Hgate Hh). reflexivity.
    + rewrite (clicked_ignored e w Hgate). reflexivity.
  - change (run (perform (Release e)) w) with (run (release e) w). unfold run.
    destruct (released (this w)) eqn:Hr.
    + rewrite (release_ignored e w Hr). reflexivity.
    + rewrite (release_effective e w Hr). apply (others_clear w Ht).
  - reflexivity.
  - change (run (perform (Leave e)) w) with (run (leave e) w). unfold run.
    rewrite leave_eq. unfold run. destruct (released (this w)) eqn:Hr.
    + rewrite release_ignored by exact Hr. reflexivity.
    + rewrite release_effective by exact Hr. apply (others_clear w Ht).
  - change (run (perform HoldFires) w) with (run hold w). unfold run.
    rewrite hold_eq. apply (others_clear w Ht).
  - reflexivity.
  - change (run (perform Deactivate) w) with (run onDeactivateEvent w).
    unfold run. rewrite onDeactivateEvent_eq. apply (others_clear w Ht).
Qed.

(** X8: the widget only ever cancels its own timer: in a tracked world no
    handler, however the events follow each other, removes or changes a
    timer of another client of the timer service. *)
Theorem foreign_timers_untouched (script : list Action) (w : World) :
  timers_tracked w = true ->
  forallb instant script = true ->
  others (timer.timers (tmr (run (perform_all script) w)))
  = others (timer.timers (tmr w)).
Proof.
  revert w. induction script as [|a script IH]; intros w Ht Hi;
    [reflexivity|].
  cbn [forallb] in Hi. apply andb_true_iff in Hi. destruct Hi as [Ha Hi].
  rewrite perform_all_cons, IH.
  - apply (others_instant a w Ht Ha).
  - apply tracked_perform, Ht.
  - exact Hi.
Qed.

(** ** Activation and deactivation, repeated *)

Lemma registry_activated (n : nat) (w : World) :
  registry (run (perform_all (repeat Activate n)) w)
  = registry w ++ List.concat (repeat widget_registrations n).
Proof.
  revert w. induction n as [|n IH]; intros w.
  - cbn. symmetry. apply app_nil_r.
  - cbn [repeat List.concat]. rewrite perform_all_cons, IH.
    change (run (perform Activate) w) with (run onActivateEvent w).
    unfold run. rewrite onActivateEvent_eq. cbn [snd registry].
    symmetry. apply app_assoc.
Qed.

(** X9: activation does not check for an earlier one: n activations leave
    n copies of the five registrations of the widget behind the entries
    the registry had.  One deactivation releases them all and keeps the
    registrations of other objects, in their order. *)
Theorem activations_accumulate (n : nat) (w : World) :
  registry (run (perform_all (repeat Activate n)) w)
  = registry w ++ List.concat (repeat widget_registrations n) /\
  registry (run (perform_all (repeat Activate n ++ [Deactivate])) w)
  = filter (fun r => negb (is_widget_registration r)) (registry w).
Proof.
  split; [apply registry_activated|].
  rewrite perform_all_app.
  change (run (perform_all [Deactivate]) ?v) with (run onDeactivateEvent v).
  unfold run at 1. rewrite onDeactivateEvent_eq. cbn [snd registry].
  rewrite registry_activated, released_from_filter, filter_app.
  replace (filter _ (List.concat (repeat widget_registrations n))) with
    (@nil Registration).
  - apply app_nil_r.
  - induction n as [|n IH]; [reflexivity|].
    cbn [repeat List.concat]. rewrite filter_app, <- IH. reflexivity.
Qed.

Lemma clear_none (s : timer.t) :
  Forall (fun en => 0 < timer.id en) (timer.timers s) ->
  timer.clearTimeout (-1) s = s.
Proof.
  destruct s as [l n]. unfold timer.clearTimeout.
  cbn [timer.timers timer.timerId]. intros Hall. f_equal.
  induction Hall as [|en l Hen _ IH]; [reflexivity|].
  cbn [filter]. unfold timer.keeps at 1.
  destruct (Z.eqb_spec (timer.id en) (-1)) as [E|E]; [lia|].
  cbn [negb]. rewrite IH. reflexivity.
Qed.

(** X10: in a tracked world a second deactivation changes nothing but
    the log: widget, timer service and registry are as the first one left
    them. *)
Theorem deactivation_idempotent (w : World) :
  timers_tracked w = true ->
  let w1 := run onDeactivateEvent w in
  let w2 := run onDeactivateEvent w1 in
  this w2 = this w1 /\ tmr w2 = tmr w1 /\ registry w2 = registry w1 /\
  trace w2 = trace w1 ++
    [ReleasePointerEvent "pointerdown" This;
     ReleasePointerEvent "pointerup" This;
     ReleasePointerEvent "pointercancel" This;
     ReleasePointerEvent "pointerenter" This;
     ReleasePointerEvent "pointerleave" This;
     TimerClearTimeout NO_TIMEOUT;
     SuperOnDeactivateEvent].
Proof.
  intros Ht. cbn zeta.
  pose proof (tracked_onDeactivateEvent w Ht) as Ht1.
  unfold run in *. rewrite (onDeactivateEvent_eq w) in *.
  rewrite onDeactivateEvent_eq. cbn [snd this tmr registry trace] in *.
  repeat apply conj; try reflexivity.
  - apply clear_none. apply tracked_spec in Ht1. destruct Ht1 as (Hall & _).
    cbn [this tmr] in Hall. revert Hall. apply Forall_impl.
    intros en Hen. apply entry_ok_spec in Hen. apply Hen.
  - rewrite !released_from_filter, filter_twice.
    apply filter_ext. intros r.
    destruct (Target_eqb (target r) This
              && existsb (String.eqb (eventName r)) widget_events);
      reflexivity.
Qed.

(** ** The log of a press cycle *)

Lemma fire_all_hold_log (ds : list timer.Entry) (d0 : timer.Entry)
  (w : World) :
  timers_tracked w = true ->
  released (this w) = false ->
  hold_timers w <> [] ->
  Forall (snapshot_ok (this w)) ds ->
  holds ds = [d0] ->
  let w1 := run (fire_all ds) w in
  this w1 = after_hold (this w) /\
  trace w1 = trace w ++ [TimerClearTimeout (holdTimeout (this w)); OnHold] /\
  hold_timers w1 = [] /\ timers_tracked w1 = true.
Proof.
  revert w. induction ds as [|d ds IH]; intros w Ht Hr Hne Hall Hone;
    [discriminate|].
  inversion Hall as [|d' ds' Hd Hds]; subst. cbn zeta.
  change (run (fire_all (d :: ds)) w)
    with (run (fire_all ds) (run (fire d) w)).
  unfold holds in Hone. cbn [filter] in Hone.
  destruct (is_hold (timer.fn d)) eqn:Hf.
  - injection Hone as _ Hrest.
    destruct (fire_hold d w Ht Hd Hf Hne) as (E1 & E2 & E3 & E4 & Ht1).
    assert (Hfor : Forall (foreign_to (this (run (fire d) w))) ds).
    { apply (snapshot_after_hold (this w)); try assumption.
      rewrite E1. reflexivity. }
    destruct (fire_all_foreign ds _ Ht1 Hfor) as (F1 & F2 & F3 & F4 & Ht2).
    rewrite Hr in E2. unfold after_hold. repeat apply conj; congruence.
  - destruct (fire_foreign d w Ht (snapshot_foreign _ _ Hd Hf))
      as (E1 & E2 & E3 & E4 & Ht1).
    rewrite <- E1 in Hds, Hr. rewrite <- E4 in Hne.
    destruct (IH _ Ht1 Hr Hne Hds Hone) as (F1 & F2 & F4 & Ht2).
    repeat apply conj; congruence.
Qed.

Lemma timer_update_fires_log (dt : Z) (en : timer.Entry) (w : World) :
  timers_tracked w = true ->
  released (this w) = false ->
  hold_timers w = [en] ->
  timer.due (timer.tick dt en) = true ->
  let w1 := run (timer_update dt) w in
  this w1 = after_hold (this w) /\
  trace w1 = trace w ++ [TimerClearTimeout (holdTimeout (this w)); OnHold] /\
  hold_timers w1 = [] /\ timers_tracked w1 = true.
Proof.
  intros Ht Hr Hone Hdue. cbn zeta. unfold run, timer_update.
  set (ts := map (timer.tick dt) (timer.timers (tmr w))).
  set (w0 := mkWorld (this w) (timer.mkTimer ts (timer.timerId (tmr w)))
                     (registry w) (trace w)).
  assert (Ht0 : timers_tracked w0 = true).
  { apply (tracked_map (timer.tick dt) w); [|exact Ht].
    intros. apply entry_ok_tick. }
  assert (Hh0 : hold_timers w0 = [timer.tick dt en]).
  { unfold hold_timers, w0, ts. cbn [tmr timer.timers].
    rewrite holds_tick. fold (hold_timers w). rewrite Hone. reflexivity. }
  assert (Hds : holds (filter timer.due ts) = [timer.tick dt en]).
  { rewrite holds_due. change (holds ts) with (hold_timers w0). rewrite Hh0.
    cbn [filter]. rewrite Hdue. reflexivity. }
  fold (run (fire_all (filter timer.due ts)) w0).
  apply (fire_all_hold_log _ (timer.tick dt en) w0); try assumption.
  - rewrite Hh0. discriminate.
  - apply (tracked_snapshot w dt Ht).
Qed.

Lemma waits_quiet_log (dts : list Z) (w : World) :
  timers_tracked w = true -> hold_timers w = [] ->
  let w1 := run (perform_all (map Wait dts)) w in
  this w1 = this w /\ trace w1 = trace w /\ hold_timers w1 = [] /\
  timers_tracked w1 = true.
Proof.
  revert w. induction dts as [|dt dts IH]; intros w Ht Hq; cbn zeta;
    [auto|].
  cbn [map]. rewrite perform_all_cons.
  change (run (perform (Wait dt)) w) with (run (timer_update dt) w).
  destruct (timer_update_quiet dt w Ht) as (E1 & E2 & _ & E4 & T1).
  { rewrite Hq. reflexivity. }
  rewrite Hq in E4. cbn [map] in E4.
  destruct (IH _ T1 E4) as (F1 & F2 & F4 & T2).
  repeat apply conj; congruence.
Qed.

Lemma waits_past_threshold_log (dts : list Z) (en : timer.Entry)
  (w : World) :
  timers_tracked w = true ->
  released (this w) = false ->
  hold_timers w = [en] ->
  dts <> [] ->
  timer.delay en <= timer.elapsed en + total dts ->
  let w1 := run (perform_all (map Wait dts)) w in
  this w1 = after_hold (this w) /\
  trace w1 = trace w ++ [TimerClearTimeout (holdTimeout (this w)); OnHold] /\
  hold_timers w1 = [] /\ timers_tracked w1 = true.
Proof.
  revert en w.
  induction dts as [|dt dts IH]; intros en w Ht Hr Hone Hne Hge; cbn zeta;
    [congruence|].
  cbn [total fold_right] in Hge. fold (total dts) in Hge.
  cbn [map]. rewrite perform_all_cons.
  change (run (perform (Wait dt)) w) with (run (timer_update dt) w).
  destruct (timer.due (timer.tick dt en)) eqn:Hdue.
  - destruct (timer_update_fires_log dt en w Ht Hr Hone Hdue)
      as (E1 & E2 & Q1 & T1).
    destruct (waits_quiet_log dts _ T1 Q1) as (F1 & F2 & Q2 & T2).
    repeat apply conj; congruence.
  - destruct (timer_update_quiet dt w Ht) as (E1 & E2 & _ & E4 & T1).
    { rewrite Hone. cbn [map filter]. rewrite Hdue. reflexivity. }
    rewrite Hone in E4. cbn [map] in E4.
    assert (Hne' : dts <> []).
    { intros ->. cbn [total fold_right] in Hge.
      unfold timer.due, timer.tick in Hdue.
      cbn [timer.delay timer.elapsed] in Hdue.
      apply Z.leb_gt in Hdue. lia. }
    rewrite <- E1 in Hr.
    destruct (IH _ _ T1 Hr E4 Hne') as (F1 & F2 & Q2 & T2).
    { cbn [timer.tick timer.elapsed timer.delay]. lia. }
    repeat apply conj; congruence.
Qed.

(** X11: the calls of a whole press cycle of a holdable widget, in their
    order.  Released before the threshold has gone by: the old handle is
    cancelled, a timer armed, onClick called, then the new timer is
    cancelled and onRelease called.  Held until the threshold has gone
    by and released later: the timer fires, [hold] cancels its own handle
    and calls onHold, and the release then cancels the none sentinel and
    still calls onRelease. *)
Theorem press_cycle_log (e e' : Pointer) (dts : list Z) (w : World) :
  timers_tracked w = true ->
  isHoldable (this w) = true -> isClickable (this w) = true ->
  button e = 0 ->
  let old := holdTimeout (this w) in
  let h := timer.timerId (tmr w) + 1 in
  let armed := [TimerClearTimeout old;
                TimerSetTimeout HoldOfThis (holdThreshold (this w)) false h;
                OnClick e] in
  let w1 := run (perform_all (Press e :: map Wait dts ++ [Release e'])) w in
  (Forall (fun dt => 0 <= dt) dts -> total dts < holdThreshold (this w) ->
   trace w1 = trace w ++ armed ++ [TimerClearTimeout h; OnRelease e']) /\
  (dts <> [] -> holdThreshold (this w) <= total dts ->
   trace w1 = trace w ++ armed ++ [TimerClearTimeout h; OnHold;
                                   TimerClearTimeout NO_TIMEOUT;
                                   OnRelease e']) /\
  released (this w1) = true /\ holdTimeout (this w1) = NO_TIMEOUT.
Proof.
  intros Ht Hh Hc Hb. cbn zeta.
  destruct (clicked_arms e w Ht Hh Hc Hb)
    as (A1 & _ & _ & Hr1 & _ & Hone & Htr & Ht1).
  rewrite perform_all_cons, perform_all_app.
  change (run (perform (Press e)) w) with (run (clicked e) w).
  change (run (perform_all [Release e']) ?v) with (run (release e') v).
  set (w1 := run (clicked e) w) in *.
  repeat apply conj.
  - intros Hpos Hlt.
    destruct (waits_below_threshold dts _ _ Ht1 Hone Hpos)
      as (E1 & E2 & _ & _).
    { cbn [timer.elapsed timer.delay]. lia. }
    set (w2 := run (perform_all (map Wait dts)) w1) in *.
    assert (Hr2 : released (this w2) = false) by (rewrite E1; exact Hr1).
    unfold run at 1. rewrite (release_effective e' w2 Hr2).
    cbn [snd trace]. rewrite E2, E1, Htr, A1, <- app_assoc. reflexivity.
  - intros Hne Hge.
    destruct (waits_past_threshold_log dts _ _ Ht1 Hr1 Hone Hne)
      as (E1 & E2 & _ & _).
    { cbn [timer.elapsed timer.delay]. lia. }
    set (w2 := run (perform_all (map Wait dts)) w1) in *.
    assert (Hr2 : released (this w2) = false) by (rewrite E1; exact Hr1).
    unfold run at 1. rewrite (release_effective e' w2 Hr2).
    cbn [snd trace]. rewrite E2, E1, Htr, A1, <- !app_assoc. reflexivity.
  - unfold run at 1.
    destruct (released (this (run (perform_all (map Wait dts)) w1))) eqn:Hr2.
    + rewrite (release_ignored e' _ Hr2). exact Hr2.
    + rewrite (release_effective e' _ Hr2). reflexivity.
  - destruct (hold_only_fields w1 (run (perform_all (map Wait dts)) w1))
      as (_ & Hr2 & _).
    { clear. generalize w1. induction dts as [|dt dts IH]; intros v;
        [apply hold_only_refl|].
      cbn [map]. rewrite perform_all_cons.
      apply (hold_only_trans _ (run (perform (Wait dt)) v)); [|apply IH].
      apply hold_only_timer_update. }
    rewrite Hr1 in Hr2.
    unfold run at 1. rewrite (release_effective e' _ Hr2). reflexivity.
Qed.

End Invariants.

(** * The further properties at work on the sample worlds *)

Lemma configuration_untouched_witness :
  dirty (super (this pressed_world)) = true /\
  dirty (super (this (run (perform_all (hk := base_hooks)
                             [Wait 300; Release primary_down; Deactivate])
                          pressed_world))) = true.
Proof.
  split; [reflexivity|].
  destruct (configuration_untouched (hk := base_hooks)
              [Wait 300; Release primary_down; Deactivate] pressed_world)
    as (_ & _ & _ & _ & _ & _ & _ & _ & _ & Hdirty).
  apply Hdirty. reflexivity.
Defined.

Lemma clicked_effective_witness :
  button primary_down = 0 /\
  isClickable (this holdable_world) = true /\
  released (this (run (clicked (hk := base_hooks) primary_down)
                      holdable_world)) = false /\
  count is_OnClick (run (clicked (hk := base_hooks) primary_down)
                        holdable_world)
  = S (count is_OnClick holdable_world).
Proof.
  destruct (clicked_effective (hk := base_hooks) primary_down holdable_world
              eq_refl eq_refl) as (Hr & _ & _ & _ & _ & Hc & _).
  exact (conj eq_refl (conj eq_refl (conj Hr Hc))).
Defined.

Lemma press_then_release_witness :
  released_inv (this holdable_world) = true /\
  timers_tracked holdable_world = true /\
  hold_timers (run (release (hk := base_hooks) primary_down)
                   (run (clicked (hk := base_hooks) primary_down)
                        holdable_world)) = [].
Proof.
  destruct (press_then_release (hk := base_hooks) primary_down primary_down
              holdable_world) as (_ & Hcycle).
  destruct (Hcycle eq_refl) as (_ & _ & Hnone).
  split; [reflexivity|]. split; [reflexivity|].
  apply Hnone. reflexivity.
Defined.

Lemma one_hold_timer_witness :
  settled holdable_world = true /\
  (List.length
     (hold_timers
        (run (perform_all (hk := base_hooks)
                [Press primary_down; Wait 100; Press primary_down; HoldFires;
                 Press primary_down; Wait 100])
             holdable_world)) <= 1)%nat.
Proof.
  split; [reflexivity|].
  destruct (one_hold_timer (hk := base_hooks)
              [Press primary_down; Wait 100; Press primary_down; HoldFires;
               Press primary_down; Wait 100]
              holdable_world eq_refl) as (_ & Hle & _).
  exact Hle.
Defined.

Lemma hold_at_most_once_per_click_witness :
  settled holdable_world = true /\
  hold_timers holdable_world = [] /\
  (count is_OnHold
     (run (perform_all (hk := base_hooks)
             [Press primary_down; Wait 300; Release primary_down;
              Press primary_down; Wait 100; Leave primary_down; Wait 300])
          holdable_world)
   - count is_OnHold holdable_world
   <= count is_OnClick
        (run (perform_all (hk := base_hooks)
                [Press primary_down; Wait 300; Release primary_down;
                 Press primary_down; Wait 100; Leave primary_down; Wait 300])
             holdable_world)
      - count is_OnClick holdable_world)%nat.
Proof.
  split; [reflexivity|]. split; [reflexivity|].
  apply (hold_at_most_once_per_click (hk := base_hooks)
           [Press primary_down; Wait 300; Release primary_down;
            Press primary_down; Wait 100; Leave primary_down; Wait 300]
           holdable_world); reflexivity.
Defined.

Lemma foreign_timers_untouched_witness :
  timers_tracked pressed_world = true /\
  others (timer.timers
            (tmr (run (perform_all (hk := base_hooks)
                         [Press primary_down; Release primary_down;
                          Deactivate])
                      pressed_world)))
  = [timer.mkEntry OtherCallback 120 true 0 1].
Proof.
  split; [reflexivity|].
  rewrite (foreign_timers_untouched (hk := base_hooks)
             [Press primary_down; Release primary_down; Deactivate]
             pressed_world eq_refl eq_refl).
  reflexivity.
Defined.

Lemma deactivation_idempotent_witness :
  timers_tracked pressed_world = true /\
  tmr (run onDeactivateEvent (run onDeactivateEvent pressed_world))
  = tmr (run onDeactivateEvent pressed_world).
Proof.
  split; [reflexivity|].
  destruct (deactivation_idempotent pressed_world eq_refl)
    as (_ & Htmr & _).
  exact Htmr.
Defined.

Lemma press_cycle_log_witness :
  timers_tracked holdable_world = true /\
  trace (run (perform_all (hk := base_hooks)
                (Press primary_down
                   :: map Wait [100; 200] ++ [Release primary_down]))
             holdable_world)
  = [TimerClearTimeout (-1); TimerSetTimeout HoldOfThis 250 false 2;
     OnClick primary_down; TimerClearTimeout 2; OnHold;
     TimerClearTimeout (-1); OnRelease primary_down].
Proof.
  split; [reflexivity|].
  destruct (press_cycle_log (hk := base_hooks) primary_down primary_down
              [100; 200] holdable_world eq_refl eq_refl eq_refl eq_refl)
    as (_ & Hheld & _).
  apply Hheld; discriminate.
Defined.


Lemma not_clickable_never_pressed_witness :
  isClickable (this unclickable_world) = false /\
  count is_OnClick
    (run (perform_all (hk := base_hooks)
            [Press primary_down; Release primary_down; Press primary_down;
             Wait 300])
         unclickable_world)
  = count is_OnClick unclickable_world.
Proof.
  split; [reflexivity|].
  destruct (not_clickable_never_pressed (hk := base_hooks)
              [Press primary_down; Release primary_down; Press primary_down;
               Wait 300]
              unclickable_world eq_refl) as (Hclick & _).
  exact Hclick.
Defined.

Section Timing.

Context {hk : Hooks}.

(** X14: in a settled world a timer update calls onHold exactly when the
    pending hold timer of the widget comes due, and then once: the guard
    on released in [hold] never holds back a call that comes from the
    timer. *)
Theorem timer_calls_onHold_when_due (dt : Z) (w : World) :
  settled w = true ->
  let w1 := run (timer_update dt) w in
  count is_OnHold w1
  = (count is_OnHold w
     + if existsb timer.due (map (timer.tick dt) (hold_timers w))
       then 1 else 0)%nat /\
  (existsb timer.due (map (timer.tick dt) (hold_timers w)) = true ->
   hold_timers w1 = [] /\ holdTimeout (this w1) = NO_TIMEOUT /\
   released (this w1) = false).
Proof.
  intros Hs. cbn zeta. apply settled_spec in Hs.
  destruct Hs as (Ht & Hi & [(Hq & Hn) | (en & Hen & Hn)]).
  - rewrite Hq. cbn [map existsb]. split; [|discriminate].
    destruct (timer_update_quiet dt w Ht) as (_ & E2 & _).
    { rewrite Hq. reflexivity. }
    unfold count. rewrite E2. lia.
  - rewrite Hen. cbn [map existsb]. rewrite orb_false_r.
    destruct (timer.due (timer.tick dt en)) eqn:Hdue.
    + destruct (timer_update_fires dt en w Ht (pressed_when_armed _ Hi Hn)
                  Hen Hdue) as (C1 & Q1 & _ & R1 & N1).
      split; [lia|]. intros _. auto.
    + split; [|discriminate].
      destruct (timer_update_quiet dt w Ht) as (_ & E2 & _).
      { rewrite Hen. cbn [map filter]. rewrite Hdue. reflexivity. }
      unfold count. rewrite E2. lia.
Qed.

Lemma counter_fire_all (ds : list timer.Entry) (w : World) :
  timer.timerId (tmr (run (fire_all ds) w)) = timer.timerId (tmr w).
Proof.
  revert w. induction ds as [|d ds IH]; intros w; [reflexivity|].
  change (run (fire_all (d :: ds)) w)
    with (run (fire_all ds) (run (fire d) w)).
  rewrite IH. unfold run, fire.
  destruct (timer.pending (timer.id d) (tmr w)); [|reflexivity].
  destruct (timer.fn d); cbn [run_callback].
  - rewrite hold_eq. cbn [snd tmr timer.clearTimeout timer.timerId].
    unfold timer.take. destruct (timer.repeat d); reflexivity.
  - cbn [ret snd tmr]. unfold timer.take.
    destruct (timer.repeat d); reflexivity.
Qed.

(** Only [setTimeout] moves the counter of the handles. *)
Lemma counter_waits (dts : list Z) (w : World) :
  timer.timerId (tmr (run (perform_all (map Wait dts)) w))
  = timer.timerId (tmr w).
Proof.
  revert w. induction dts as [|dt dts IH]; intros w; [reflexivity|].
  cbn [map]. rewrite perform_all_cons, IH.
  change (run (perform (Wait dt)) w) with (run (timer_update dt) w).
  unfold run, timer_update.
  fold (run (fire_all (filter timer.due
                         (map (timer.tick dt) (timer.timers (tmr w)))))
            (mkWorld (this w)
               (timer.mkTimer (map (timer.tick dt) (timer.timers (tmr w)))
                              (timer.timerId (tmr w)))
               (registry w) (trace w))).
  rewrite counter_fire_all. reflexivity.
Qed.

(** X15: a second press restarts the hold timer: after a press, a wait
    below the threshold, a second press and another wait below the
    threshold, onHold has not been called, however long the two waits are
    together, and the timer armed by the second press is the one
    pending. *)
Theorem repress_restarts_timer (e e2 : Pointer) (dts1 dts2 : list Z)
  (w : World) :
  timers_tracked w = true ->
  isHoldable (this w) = true -> isClickable (this w) = true ->
  button e = 0 -> button e2 = 0 ->
  Forall (fun dt => 0 <= dt) dts1 -> total dts1 < holdThreshold (this w) ->
  Forall (fun dt => 0 <= dt) dts2 -> total dts2 < holdThreshold (this w) ->
  let w1 := run (perform_all (Press e :: map Wait dts1
                                ++ Press e2 :: map Wait dts2)) w in
  count is_OnHold w1 = count is_OnHold w /\
  hold_timers w1
  = [timer.mkEntry HoldOfThis (holdThreshold (this w)) false (total dts2)
                   (timer.timerId (tmr w) + 2)] /\
  holdTimeout (this w1) = timer.timerId (tmr w) + 2.
Proof.
  intros Ht Hh Hc Hb Hb2 Hpos1 Hlt1 Hpos2 Hlt2. cbn zeta.
  destruct (clicked_arms e w Ht Hh Hc Hb)
    as (_ & _ & _ & _ & _ & Hone & Htr & Ht1).
  rewrite perform_all_cons, perform_all_app, perform_all_cons.
  change (run (perform (Press e)) w) with (run (clicked e) w).
  set (w1 := run (clicked e) w) in *.
  destruct (waits_below_threshold dts1 _ _ Ht1 Hone Hpos1)
    as (E1 & E2 & _ & T2).
  { cbn [timer.elapsed timer.delay]. lia. }
  set (w2 := run (perform_all (map Wait dts1)) w1) in *.
  change (run (perform (Press e2)) w2) with (run (clicked e2) w2).
  assert (Hcfg : config (this w1) = config (this w)).
  { destruct (perform_fields (Press e) w) as (_ & Hcfg & _). exact Hcfg. }
  unfold config in Hcfg. injection Hcfg as Hc1 Hthr1 Hh1 _ _ _ _ _ _.
  assert (Hid : timer.timerId (tmr w2) = timer.timerId (tmr w) + 1).
  { unfold w2. rewrite counter_waits. unfold w1, run.
    rewrite (clicked_armed e w) by (rewrite ?Hb, ?Hc; auto).
    reflexivity. }
  destruct (clicked_arms e2 w2 T2) as (A1 & _ & _ & _ & _ & Hone2 & Htr2 & T3).
  { rewrite E1. congruence. }
  { rewrite E1. congruence. }
  { exact Hb2. }
  set (w3 := run (clicked e2) w2) in *.
  destruct (waits_below_threshold dts2 _ _ T3 Hone2 Hpos2)
    as (F1 & F2 & F3 & _).
  { cbn [timer.elapsed timer.delay]. rewrite E1. lia. }
  repeat apply conj.
  - unfold count. rewrite F2, Htr2, E2, Htr, !filter_app, !length_app.
    cbn. lia.
  - rewrite F3, E1, Hthr1, Hid. unfold timer.tick.
    cbn [timer.fn timer.delay timer.repeat timer.elapsed timer.id].
    f_equal. f_equal; lia.
  - rewrite F1, A1, Hid. lia.
Qed.

End Timing.

Lemma timer_calls_onHold_when_due_witness :
  settled pressed_world = true /\
  count is_OnHold (run (timer_update 250) pressed_world)
  = S (count is_OnHold pressed_world).
Proof.
  split; [reflexivity|].
  destruct (timer_calls_onHold_when_due 250 pressed_world eq_refl)
    as (Hcount & _).
  rewrite Hcount. reflexivity.
Defined.

Lemma repress_restarts_timer_witness :
  timers_tracked holdable_world = true /\
  count is_OnHold
    (run (perform_all (hk := base_hooks)
            (Press primary_down :: map Wait [200]
               ++ Press primary_down :: map Wait [200]))
         holdable_world)
  = count is_OnHold holdable_world.
Proof.
  split; [reflexivity|].
  destruct (repress_restarts_timer (hk := base_hooks) primary_down
              primary_down [200] [200] holdable_world
              eq_refl eq_refl eq_refl eq_refl eq_refl) as (Hcount & _).
  - repeat constructor; discriminate.
  - reflexivity.
  - repeat constructor; discriminate.
  - reflexivity.
  - exact Hcount.
Defined.
